(** * Credential authentication core of the rental-management application

    A shallow embedding of

    - [src/lib/password.ts]: [hashPassword], [verifyPassword],
      [shouldRehashPassword], [generateSecurePassword],
      [validatePasswordStrength];
    - [src/lib/auth.ts]: the [authorize] function of the credentials provider;
    - [src/types/auth.ts]: the [isAuthenticated] type guard;

    and the properties of these functions.

    JavaScript values are modelled as far as the code inspects them: strings
    are sequences of UTF-16 code units, numbers are IEEE doubles, objects are
    property lists.  The third-party collaborators (bcryptjs, the Prisma
    client, the console, [Math.random], [String.prototype.toLowerCase]) are
    an interface over an abstract world; a thrown exception is an explicit
    outcome.  An [async] function is the computation that its [await]s run
    in order, a rejected promise is a throw; one login attempt is one run,
    and runs do not interleave. *)

From Stdlib Require Import ZArith NArith List String Ascii Bool Lia.
From Stdlib Require Import QArith Qround Floats.
Import ListNotations.

Set Implicit Arguments.
Close Scope Q_scope.
Open Scope string_scope.
Open Scope list_scope.

(* ================================================================== *)
(** ** JavaScript values *)
(* ================================================================== *)

Module Js.

(** A JavaScript string: its UTF-16 code units. [s.length] is the number of
    code units. *)
Definition jsstring : Type := list N.

(** The code units of an ASCII literal of the source. *)
Definition lit (s : string) : jsstring :=
  List.map N_of_ascii (list_ascii_of_string s).

#[local] Set Warnings "-register-all".
Inductive JsVal : Type :=
| JsUndefined
| JsNull
| JsBool (b : bool)
| JsNumber (x : float)
| JsString (s : jsstring)
| JsDate (ms : Z)
| JsObject (props : list (string * JsVal)).

(** What a [throw] carries: an [Error] instance with its message, or any
    other value. *)
Inductive Exn : Type :=
| JsError (message : jsstring)
| JsThrown (v : JsVal).

(** ToBoolean: [undefined], [null], [false], [0], [-0], [NaN] and the empty
    string are falsy; everything else, every object included, is truthy. *)
Definition truthy (v : JsVal) : bool :=
  match v with
  | JsUndefined | JsNull => false
  | JsBool b => b
  | JsNumber x => negb (PrimFloat.eqb x 0%float || PrimFloat.is_nan x)
  | JsString s => negb (Nat.eqb (List.length s) 0)
  | JsDate _ | JsObject _ => true
  end.

(** [typeof v === 'string'] *)
Definition typeof_string (v : JsVal) : bool :=
  match v with JsString _ => true | _ => false end.

(** [v !== null], [v !== undefined] *)
Definition not_null (v : JsVal) : bool :=
  match v with JsNull => false | _ => true end.
Definition not_undefined (v : JsVal) : bool :=
  match v with JsUndefined => false | _ => true end.

Fixpoint lookup (k : string) (props : list (string * JsVal)) : option JsVal :=
  match props with
  | [] => None
  | (k', v) :: rest => if String.eqb k k' then Some v else lookup k rest
  end.

(** A value of a nullable column: [null] when absent. *)
Definition nullable {A : Type} (inj : A -> JsVal) (o : option A) : JsVal :=
  match o with Some a => inj a | None => JsNull end.

End Js.
Import Js.

(* ================================================================== *)
(** ** Outcomes: a value returned or an exception thrown *)
(* ================================================================== *)

Inductive Outcome (A : Type) : Type :=
| Ok (a : A)
| Throw (e : Exn).
Arguments Ok {A} a.
Arguments Throw {A} e.

Definition is_throw {A : Type} (o : Outcome A) : bool :=
  match o with Ok _ => false | Throw _ => true end.

(** Property access [v.k]: a [TypeError] on [null] and [undefined],
    [undefined] for a property that is not there. The values of this model
    carry no own properties other than those of an object's list. *)
Definition get_prop (v : JsVal) (k : string) : Outcome JsVal :=
  match v with
  | JsUndefined =>
      Throw (JsError (lit "Cannot read properties of undefined"))
  | JsNull =>
      Throw (JsError (lit "Cannot read properties of null"))
  | JsObject props =>
      match lookup k props with Some x => Ok x | None => Ok JsUndefined end
  | _ => Ok JsUndefined
  end.

(** Optional chaining [v?.k]: [undefined] on [null] and [undefined]. *)
Definition opt_prop (v : JsVal) (k : string) : JsVal :=
  match v with
  | JsObject props =>
      match lookup k props with Some x => x | None => JsUndefined end
  | _ => JsUndefined
  end.

(* ================================================================== *)
(** ** src/types/auth.ts *)
(* ================================================================== *)

Module Types.

Inductive UserRole : Type := TENANT | LANDLORD | ADMIN.

Definition role_string (r : UserRole) : jsstring :=
  match r with
  | TENANT => lit "TENANT"
  | LANDLORD => lit "LANDLORD"
  | ADMIN => lit "ADMIN"
  end.

(** [session !== null && session !== undefined && session.user !== undefined],
    with the short-circuit of [&&] *)
Definition isAuthenticated (session : JsVal) : Outcome bool :=
  if not_null session then
    if not_undefined session then
      match get_prop session "user" with
      | Ok user => Ok (not_undefined user)
      | Throw e => Throw e
      end
    else Ok false
  else Ok false.

End Types.

(* ================================================================== *)
(** ** The collaborators and the effect monad *)
(* ================================================================== *)

(** One line written to the console: the literal text and, where the source
    interpolates or passes one, the value or the caught exception. *)
Inductive LogLine : Type :=
| LogText (text : string)
| LogAbout (text : string) (v : JsVal)
| LogCaught (text : string) (e : Exn).

(** A row of the [users] table as [findUnique] selects it in [authorize]:
    [id], [email], [name], [password], [role], [emailVerified], [image]
    (columns [name], [password], [emailVerified] and [image] are nullable in
    the Prisma schema). *)
Record UserRow : Type := {
  id : jsstring;
  email : jsstring;
  name : option jsstring;
  password : option jsstring;
  role : Types.UserRole;
  emailVerified : option Z;
  image : option jsstring
}.

(** What this code calls and does not define, over a world [W] that holds
    whatever these calls read and change (the database, the salt generator,
    the random generator, the console). Every call that can throw or reject
    returns an [Outcome]; awaiting a rejected promise is a throw. *)
Class Collaborators (W : Type) : Type := {
  (** [bcrypt.hash(password, rounds)] *)
  bcrypt_hash : jsstring -> float -> W -> Outcome jsstring * W;
  (** [bcrypt.compare(password, hash)] *)
  bcrypt_compare : jsstring -> jsstring -> W -> Outcome bool * W;
  (** [bcrypt.getRounds(hash)] *)
  bcrypt_getRounds : jsstring -> W -> Outcome float * W;
  (** [prisma.user.findUnique({ where: { email }, select: ... })] *)
  prisma_user_findUnique : jsstring -> W -> Outcome (option UserRow) * W;
  (** [prisma.user.update({ where: { id }, data: { password } })] *)
  prisma_user_update : jsstring -> jsstring -> W -> Outcome unit * W;
  (** [console.log], [console.error] *)
  console_log : LogLine -> W -> W;
  console_error : LogLine -> W -> W;
  (** [String.prototype.toLowerCase] *)
  toLowerCase : jsstring -> jsstring;
  (** [Math.random()], by the exact value of the double it returns *)
  Math_random : W -> Q * W
}.

(** A computation: from a world to an outcome and the world after it. *)
Definition M (W A : Type) : Type := W -> Outcome A * W.

Definition ret {W A : Type} (a : A) : M W A := fun w => (Ok a, w).

Definition throw {W A : Type} (e : Exn) : M W A := fun w => (Throw e, w).

Definition bind {W A B : Type} (m : M W A) (k : A -> M W B) : M W B :=
  fun w =>
    match m w with
    | (Ok a, w') => k a w'
    | (Throw e, w') => (Throw e, w')
    end.

(** [try { body } catch (error) { handler }] *)
Definition try_catch {W A : Type} (body : M W A) (handler : Exn -> M W A)
  : M W A :=
  fun w =>
    match body w with
    | (Ok a, w') => (Ok a, w')
    | (Throw e, w') => handler e w'
    end.

(** A call that cannot throw. *)
Definition effect {W : Type} (f : W -> W) : M W unit := fun w => (Ok tt, f w).

Declare Scope js_scope.
Delimit Scope js_scope with js.
Notation "x <- m ;; k" := (bind m (fun x => k))
  (at level 61, m at next level, right associativity) : js_scope.
Notation "m ;;; k" := (bind m (fun _ => k))
  (at level 61, right associativity) : js_scope.
Open Scope js_scope.

(* ================================================================== *)
(** ** src/lib/password.ts *)
(* ================================================================== *)

Module Password.

Definition SALT_ROUNDS : float := 12%float.

(** The messages of the errors the module throws. *)
Definition msg_non_empty : jsstring := lit "Password must be a non-empty string".
Definition msg_too_short : jsstring :=
  lit "Password must be at least 8 characters long".
Definition msg_too_long : jsstring := lit "Password must be 72 characters or less".
Definition msg_hash_non_empty : jsstring :=
  lit "Hashed password must be a non-empty string".
Definition msg_hashing_failed : jsstring := lit "Password hashing failed: ".
Definition msg_unknown : jsstring := lit "Unknown error".
Definition msg_verification_failed : jsstring := lit "Password verification failed".

(** [error instanceof Error ? error.message : 'Unknown error'] *)
Definition message_of (error : Exn) : jsstring :=
  match error with
  | JsError message => message
  | JsThrown _ => msg_unknown
  end.

Section WithCollaborators.
Context {W : Type} `{Collaborators W}.

Definition hashPassword (password : JsVal) : M W jsstring :=
  try_catch
    (if negb (truthy password) || negb (typeof_string password)
     then throw (JsError msg_non_empty)
     else
       match password with
       | JsString s =>
           if (List.length s <? 8)%nat then throw (JsError msg_too_short)
           else if (72 <? List.length s)%nat then throw (JsError msg_too_long)
           else
             hashedPassword <- bcrypt_hash s SALT_ROUNDS ;;
             ret hashedPassword
       | _ =>
           (* not reached: [typeof password] is ['string'] here *)
           throw (JsError msg_non_empty)
       end)
    (fun error => throw (JsError (msg_hashing_failed ++ message_of error))).

Definition verifyPassword (password hashedPassword : JsVal) : M W bool :=
  try_catch
    (if negb (truthy password) || negb (typeof_string password)
     then throw (JsError msg_non_empty)
     else if negb (truthy hashedPassword) || negb (typeof_string hashedPassword)
     then throw (JsError msg_hash_non_empty)
     else
       match password, hashedPassword with
       | JsString p, JsString h =>
           isValid <- bcrypt_compare p h ;;
           ret isValid
       | _, _ =>
           (* not reached: both are strings here *)
           throw (JsError msg_non_empty)
       end)
    (fun _ => throw (JsError msg_verification_failed)).

Definition shouldRehashPassword (hashedPassword : jsstring) : M W bool :=
  try_catch
    (rounds <- bcrypt_getRounds hashedPassword ;;
     ret (PrimFloat.ltb rounds SALT_ROUNDS))
    (fun _ => ret true).

(** *** generateSecurePassword *)

Definition charset : jsstring :=
  lit "ABCDEFGHIJKLMNOPQRSTUVWXYZabcdefghijklmnopqrstuvwxyz0123456789!@#$%^&*".

(** [s[i]]: the code unit at an index inside the string, [undefined]
    elsewhere. *)
Definition char_at (s : jsstring) (i : Z) : option N :=
  if (i <? 0)%Z then None else nth_error s (Z.to_nat i).

(** [password += c]: [undefined] is appended as the text ['undefined']. *)
Definition append_char (password : jsstring) (c : option N) : jsstring :=
  match c with
  | Some u => password ++ [u]
  | None => password ++ lit "undefined"
  end.

(** [Math.floor(Math.random() * charset.length)] *)
Definition randomIndex_of (x : Q) : Z :=
  Qfloor (x * inject_Z (Z.of_nat (List.length charset)))%Q.

(** The body of the [for] loop, run [remaining] more times. *)
Fixpoint generate_loop (remaining : nat) (password : jsstring)
  : M W jsstring :=
  match remaining with
  | O => ret password
  | S remaining' =>
      fun w =>
        let (x, w') := Math_random w in
        let randomIndex := randomIndex_of x in
        generate_loop remaining' (append_char password (char_at charset randomIndex)) w'
  end.

(** [length] is [None] when the argument is left out (default 16). The loop
    [for (let i = 0; i < length; i++)] runs once for each integer [i] with
    [0 <= i < length]. *)
Definition generateSecurePassword (length : option Z) : M W jsstring :=
  let length := match length with Some n => n | None => 16%Z end in
  generate_loop (Z.to_nat length) [].

End WithCollaborators.

(** *** validatePasswordStrength *)

Record PasswordValidation : Type := {
  isValid : bool;
  errors : list jsstring
}.

Definition in_range (lo hi c : N) : bool := (lo <=? c)%N && (c <=? hi)%N.

(** [/[A-Z]/], [/[a-z]/], [/\d/] *)
Definition is_upper (c : N) : bool := in_range 65 90 c.
Definition is_lower (c : N) : bool := in_range 97 122 c.
Definition is_digit (c : N) : bool := in_range 48 57 c.

(** The members of the class of the last regular expression; 34 is the
    double quote. *)
Definition special_chars : jsstring :=
  lit "!@#$%^&*()_+-=[]{};':" ++ [34%N] ++ lit "\|,.<>/?".

Definition is_special (c : N) : bool := existsb (N.eqb c) special_chars.

(** [/[class]/.test(s)]: some code unit of [s] is in the class. *)
Definition regex_test (class : N -> bool) (s : jsstring) : bool :=
  existsb class s.

Definition msg_need_upper : jsstring :=
  lit "Password must contain at least one uppercase letter".
Definition msg_need_lower : jsstring :=
  lit "Password must contain at least one lowercase letter".
Definition msg_need_digit : jsstring :=
  lit "Password must contain at least one number".
Definition msg_need_special : jsstring :=
  lit "Password must contain at least one special character".

(** [errors.push(msg)] *)
Definition push (errors : list jsstring) (msg : jsstring) : list jsstring :=
  errors ++ [msg].

Definition validatePasswordStrength (password : jsstring) : PasswordValidation :=
  let errors := [] in
  let errors :=
    if (List.length password <? 8)%nat then push errors msg_too_short else errors in
  let errors :=
    if (72 <? List.length password)%nat then push errors msg_too_long else errors in
  let errors :=
    if negb (regex_test is_upper password) then push errors msg_need_upper
    else errors in
  let errors :=
    if negb (regex_test is_lower password) then push errors msg_need_lower
    else errors in
  let errors :=
    if negb (regex_test is_digit password) then push errors msg_need_digit
    else errors in
  let errors :=
    if negb (regex_test is_special password) then push errors msg_need_special
    else errors in
  {| isValid := Nat.eqb (List.length errors) 0; errors := errors |}.

End Password.

(* ================================================================== *)
(** ** src/lib/auth.ts: the credentials provider *)
(* ================================================================== *)

Module Auth.
Import Password.

Section WithCollaborators.
Context {W : Type} `{Collaborators W}.

(** [email.toLowerCase()]: the method exists on strings only. *)
Definition call_toLowerCase (v : JsVal) : M W jsstring :=
  match v with
  | JsString s => ret (toLowerCase s)
  | JsUndefined | JsNull =>
      throw (JsError (lit "Cannot read properties of undefined"))
  | _ => throw (JsError (lit "credentials.email.toLowerCase is not a function"))
  end.

(** [!user.password] for the nullable column *)
Definition no_password (p : option jsstring) : bool :=
  negb (truthy (nullable JsString p)).

(** The object literal [authorize] returns for a row. *)
Definition returned_user (user : UserRow) : JsVal :=
  JsObject
    [ ("id", JsString (id user));
      ("email", JsString (email user));
      ("name", nullable JsString (name user));
      ("role", JsString (Types.role_string (role user)));
      ("emailVerified", nullable JsDate (emailVerified user));
      ("image", nullable JsString (image user)) ].

(** The [try] block of the rehash: hash the plaintext again and persist
    the new digest. *)
Definition rehash_attempt (credentials_password : JsVal) (user : UserRow)
  : M W unit :=
  newHashedPassword <- hashPassword credentials_password ;;
  prisma_user_update (id user) newHashedPassword.

(** The rehash with its [catch] block, which logs and goes on. *)
Definition rehash (credentials_password : JsVal) (user : UserRow) : M W unit :=
  try_catch
    (rehash_attempt credentials_password user)
    (fun error =>
       effect (console_error
                 (LogCaught "Failed to rehash password during login:" error))).

(** The outer [try] block of [authorize]. *)
Definition attempt (credentials : JsVal) : M W JsVal :=
  let credentials_email := opt_prop credentials "email" in
  let credentials_password := opt_prop credentials "password" in
  if negb (truthy credentials_email) || negb (truthy credentials_password)
  then
    effect (console_log (LogText "Missing email or password in login attempt")) ;;;
    ret JsNull
  else
    where_email <- call_toLowerCase credentials_email ;;
    user <- prisma_user_findUnique where_email ;;
    match user with
    | None =>
        effect (console_log
                  (LogAbout "Login attempt for non-existent user: "
                            credentials_email)) ;;;
        ret JsNull
    | Some user =>
        if no_password (password user)
        then
          effect (console_log
                    (LogAbout "Login attempt with password for OAuth-only user: "
                              credentials_email)) ;;;
          ret JsNull
        else
          isPasswordValid <-
            verifyPassword credentials_password
                           (nullable JsString (password user)) ;;
          if negb isPasswordValid
          then
            effect (console_log
                      (LogAbout "Invalid password for user: " credentials_email)) ;;;
            ret JsNull
          else
            needsRehash <-
              match password user with
              | Some stored => shouldRehashPassword stored
              | None => ret false (* not reached: the password is set here *)
              end ;;
            (if needsRehash
             then
               effect (console_log
                         (LogAbout "Rehashing password for user: "
                                   credentials_email)) ;;;
               rehash credentials_password user
             else ret tt) ;;;
            ret (returned_user user)
    end.

(** [authorize]: the attempt, and [null] for whatever it throws. *)
Definition authorize (credentials : JsVal) : M W JsVal :=
  try_catch
    (attempt credentials)
    (fun error =>
       effect (console_error (LogCaught "Authentication error:" error)) ;;;
       ret JsNull).

End WithCollaborators.

End Auth.

(* ================================================================== *)
(** ** Test doubles for the collaborators *)
(* ================================================================== *)

(** A small concrete world, in the manner of the mocks of the test suite: a
    user table, a salt counter, a console, a random seed, and two switches
    that make the storage fail. The digest of the double is a cost unit, a
    salt unit and the plaintext itself; it stands for bcryptjs only in that
    it keeps the same contract. *)
Module Doubles.

Record World : Type := {
  users : list UserRow;
  salts : nat;
  console : list LogLine;
  seed : nat;
  storage_down : bool;
  storage_read_only : bool
}.

Definition jsstring_eqb (a b : jsstring) : bool :=
  if list_eq_dec N.eq_dec a b then true else false.

Definition cost_unit (rounds : float) : N :=
  if PrimFloat.eqb rounds 12%float then 12%N
  else if PrimFloat.eqb rounds 10%float then 10%N
  else 4%N.

Definition cost_of_unit (c : N) : float :=
  if N.eqb c 12 then 12%float else if N.eqb c 10 then 10%float else 4%float.

Definition double_hash (p : jsstring) (rounds : float) (w : World)
  : Outcome jsstring * World :=
  (Ok (cost_unit rounds :: N.of_nat (salts w) :: p),
   {| users := users w; salts := S (salts w); console := console w;
      seed := seed w; storage_down := storage_down w;
      storage_read_only := storage_read_only w |}).

Definition double_compare (p h : jsstring) (w : World)
  : Outcome bool * World :=
  match h with
  | _ :: _ :: body => (Ok (jsstring_eqb p body), w)
  | _ => (Throw (JsError (lit "Invalid hash")), w)
  end.

Definition double_getRounds (h : jsstring) (w : World)
  : Outcome float * World :=
  match h with
  | c :: _ :: _ => (Ok (cost_of_unit c), w)
  | _ => (Throw (JsError (lit "Invalid hash")), w)
  end.

Definition double_findUnique (where_email : jsstring) (w : World)
  : Outcome (option UserRow) * World :=
  if storage_down w
  then (Throw (JsError (lit "Can't reach database server")), w)
  else (Ok (find (fun u => jsstring_eqb (email u) where_email) (users w)), w).

Definition set_password (user_id new_password : jsstring) (u : UserRow)
  : UserRow :=
  if jsstring_eqb (id u) user_id
  then {| id := id u; email := email u; name := name u;
          password := Some new_password; role := role u;
          emailVerified := emailVerified u; image := image u |}
  else u.

Definition double_update (user_id new_password : jsstring) (w : World)
  : Outcome unit * World :=
  if storage_down w || storage_read_only w
  then (Throw (JsError (lit "Can't reach database server")), w)
  else (Ok tt,
        {| users := List.map (set_password user_id new_password) (users w);
           salts := salts w; console := console w; seed := seed w;
           storage_down := storage_down w;
           storage_read_only := storage_read_only w |}).

Definition double_console (l : LogLine) (w : World) : World :=
  {| users := users w; salts := salts w; console := console w ++ [l];
     seed := seed w; storage_down := storage_down w;
     storage_read_only := storage_read_only w |}.

Definition double_toLowerCase (s : jsstring) : jsstring :=
  List.map (fun c => if Password.is_upper c then (c + 32)%N else c) s.

Definition double_random (w : World) : Q * World :=
  ((Z.of_nat (seed w mod 70) # 70)%Q,
   {| users := users w; salts := salts w; console := console w;
      seed := S (seed w); storage_down := storage_down w;
      storage_read_only := storage_read_only w |}).

Definition doubles : Collaborators World :=
  {| bcrypt_hash := double_hash;
     bcrypt_compare := double_compare;
     bcrypt_getRounds := double_getRounds;
     prisma_user_findUnique := double_findUnique;
     prisma_user_update := double_update;
     console_log := double_console;
     console_error := double_console;
     toLowerCase := double_toLowerCase;
     Math_random := double_random |}.

(** A tenant whose password [Secret123!] was stored at cost 10. *)
Definition alice : UserRow :=
  {| id := lit "u1";
     email := lit "alice@example.com";
     name := Some (lit "Alice");
     password := Some (10%N :: 0%N :: lit "Secret123!");
     role := Types.TENANT;
     emailVerified := None;
     image := None |}.

(** An account created through OAuth: no password. *)
Definition bob : UserRow :=
  {| id := lit "u2";
     email := lit "bob@example.com";
     name := None;
     password := None;
     role := Types.LANDLORD;
     emailVerified := Some 1700000000000%Z;
     image := None |}.

Definition world0 : World :=
  {| users := [alice; bob]; salts := 1; console := []; seed := 0;
     storage_down := false; storage_read_only := false |}.

(** The same world with a storage that refuses writes. *)
Definition world_read_only : World :=
  {| users := [alice; bob]; salts := 1; console := []; seed := 0;
     storage_down := false; storage_read_only := true |}.

(** The same world with a storage that is down. *)
Definition world_down : World :=
  {| users := [alice; bob]; salts := 1; console := []; seed := 0;
     storage_down := true; storage_read_only := false |}.

Definition login (e p : string) : JsVal :=
  JsObject [ ("email", JsString (lit e)); ("password", JsString (lit p)) ].

End Doubles.

(* ================================================================== *)
(** ** Properties of the [isAuthenticated] guard *)
(* ================================================================== *)

Module TypesFacts.
Import Types.

(** The session argument is there: neither [null] nor [undefined]. *)
Definition session_present (session : JsVal) : Prop :=
  session <> JsNull /\ session <> JsUndefined.

(** The identity of a session is there: reading [session.user] gives a value
    other than [undefined]. *)
Definition identity_present (session : JsVal) : Prop :=
  exists user, get_prop session "user" = Ok user /\ user <> JsUndefined.

Lemma not_undefined_true (v : JsVal) : not_undefined v = true <-> v <> JsUndefined.
Proof. destruct v; simpl; split; congruence. Qed.

(** C9. For every session argument, [null] and [undefined] included,
    [isAuthenticated] returns a boolean and never throws; the boolean is
    [true] if and only if the session is present and its [user] field is
    present ([!== undefined]). A session object whose [user] is missing or
    [undefined] is unauthenticated. *)
Theorem isAuthenticated_iff_session_and_identity (session : JsVal) :
  exists b : bool,
    isAuthenticated session = Ok b
    /\ (b = true <-> session_present session /\ identity_present session)
    /\ (forall props,
          session = JsObject props ->
          lookup "user" props = None \/ lookup "user" props = Some JsUndefined ->
          b = false).
Proof.
  unfold isAuthenticated, session_present, identity_present.
  destruct session as [ | | b0 | x | s | ms | props ]; simpl.
  1-6: exists false; split; [reflexivity | ];
       (split; [ | intros; reflexivity ]);
       (split; [ discriminate | ]);
       intros [[Hn Hu] [u [Hg Hne]]]; simpl in Hg; congruence.
  - destruct (lookup "user" props) as [u | ] eqn:Hl.
    + exists (not_undefined u). split; [reflexivity | split].
      * rewrite not_undefined_true. split.
        -- intros Hu. repeat split; try congruence. exists u. split; auto.
        -- intros [_ [u' [Hu' Hne]]]. congruence.
      * intros props' Heq [Hnone | Hsome].
        -- injection Heq as <-. congruence.
        -- injection Heq as <-. rewrite Hl in Hsome.
           injection Hsome as ->. reflexivity.
    + exists false. split; [reflexivity | split].
      * split; [congruence | ].
        intros [_ [u [Hu Hne]]]. congruence.
      * reflexivity.
Qed.

End TypesFacts.

(* ================================================================== *)
(** ** Properties of the password policy validator *)
(* ================================================================== *)

Module ValidatorFacts.
Import Password.



(** The error of one check: the message when the check fails. *)
Definition report (failed : bool) (msg : jsstring) : list jsstring :=
  if failed then [msg] else [].

(** The six pushes, unrolled. *)
Lemma errors_unrolled (p : jsstring) :
  errors (validatePasswordStrength p) =
    report (List.length p <? 8)%nat msg_too_short
    ++ report (72 <? List.length p)%nat msg_too_long
    ++ report (negb (regex_test is_upper p)) msg_need_upper
    ++ report (negb (regex_test is_lower p)) msg_need_lower
    ++ report (negb (regex_test is_digit p)) msg_need_digit
    ++ report (negb (regex_test is_special p)) msg_need_special.
Proof.
  unfold validatePasswordStrength, push, report. cbn [errors].
  destruct (List.length p <? 8)%nat, (72 <? List.length p)%nat,
    (negb (regex_test is_upper p)), (negb (regex_test is_lower p)),
    (negb (regex_test is_digit p)), (negb (regex_test is_special p));
    reflexivity.
Qed.








End ValidatorFacts.

(* ================================================================== *)
(** ** Properties of the hasher and of the rehash advisor *)
(* ================================================================== *)

Module PasswordFacts.
Import Password.

(** Unfolding of the effect monad in goals and hypotheses. *)
Ltac unfold_m :=
  unfold try_catch, bind, ret, throw, effect in *.

Section WithCollaborators.
Context {W : Type} `{Collaborators W}.

Lemma shouldRehashPassword_returns (hashedPassword : jsstring) (w : W) :
  exists (b : bool) (w' : W), shouldRehashPassword hashedPassword w = (Ok b, w').
Proof.
  unfold shouldRehashPassword. unfold_m.
  destruct (bcrypt_getRounds hashedPassword w) as [[rounds | e] w']; eauto.
Qed.


(** A [NaN] from [bcrypt.getRounds] is a number that is not below 12. *)
Remark shouldRehashPassword_on_NaN (hashedPassword : jsstring) (w w' : W) :
  bcrypt_getRounds hashedPassword w = (Ok PrimFloat.nan, w') ->
  shouldRehashPassword hashedPassword w = (Ok false, w').
Proof.
  intros Hg. unfold shouldRehashPassword. unfold_m. rewrite Hg. reflexivity.
Qed.

(** *** hashPassword *)

(** A plaintext the hasher accepts: a string of 8 to 72 code units. *)
Definition plaintext_ok (v : JsVal) : bool :=
  match v with
  | JsString s => (8 <=? List.length s)%nat && (List.length s <=? 72)%nat
  | _ => false
  end.

(** The message of the validation error for a plaintext that is refused. *)
Definition validation_message (v : JsVal) : jsstring :=
  match v with
  | JsString s =>
      if Nat.eqb (List.length s) 0 then msg_non_empty
      else if (List.length s <? 8)%nat then msg_too_short
      else msg_too_long
  | _ => msg_non_empty
  end.

(** The error a caller sees on a validation failure: the validation error
    thrown inside the [try] block, as the [catch] block of [hashPassword]
    throws it again. *)
Definition ValidationError (v : JsVal) : Exn :=
  JsError (msg_hashing_failed ++ validation_message v).

Lemma hashPassword_refuses (v : JsVal) (w : W) :
  plaintext_ok v = false ->
  hashPassword v w = (Throw (ValidationError v), w).
Proof.
  unfold hashPassword, ValidationError, plaintext_ok, validation_message.
  unfold_m.
  destruct v as [ | | b | x | s | ms | props ]; cbn [truthy typeof_string negb orb];
    intros Hbad; try reflexivity.
  - destruct b; reflexivity.
  - destruct (negb _); reflexivity.
  - destruct s as [ | c s ]; [reflexivity | ].
    cbn [List.length Nat.eqb negb orb].
    destruct (S (List.length s) <? 8)%nat eqn:Hshort; [reflexivity | ].
    destruct (72 <? S (List.length s))%nat eqn:Hlong; [reflexivity | ].
    apply Nat.ltb_ge in Hshort, Hlong.
    apply andb_false_iff in Hbad.
    destruct Hbad as [Hb | Hb]; apply Nat.leb_gt in Hb; cbn [List.length] in Hb; lia.
Qed.

Lemma hashPassword_accepts (s : jsstring) (w : W) :
  plaintext_ok (JsString s) = true ->
  hashPassword (JsString s) w =
    match bcrypt_hash s SALT_ROUNDS w with
    | (Ok digest, w') => (Ok digest, w')
    | (Throw e, w') => (Throw (JsError (msg_hashing_failed ++ message_of e)), w')
    end.
Proof.
  unfold hashPassword, plaintext_ok. unfold_m.
  intros Hok. apply andb_true_iff in Hok. destruct Hok as [Hlo Hhi].
  apply Nat.leb_le in Hlo, Hhi.
  destruct s as [ | c s ]; [cbn in Hlo; lia | ].
  cbn [truthy typeof_string List.length Nat.eqb negb orb].
  destruct (S (List.length s) <? 8)%nat eqn:Hshort;
    [apply Nat.ltb_lt in Hshort; cbn [List.length] in Hlo; lia | ].
  destruct (72 <? S (List.length s))%nat eqn:Hlong;
    [apply Nat.ltb_lt in Hlong; cbn [List.length] in Hhi; lia | ].
  destruct (bcrypt_hash (c :: s) SALT_ROUNDS w) as [[digest | e] w']; reflexivity.
Qed.

(** C5. When the digest algorithm does not itself error on the plaintext,
    [hashPassword] fails exactly when the plaintext is missing, not a string,
    empty, shorter than 8 or longer than 72 code units. It then fails with
    the validation error of the plaintext, in the world it was called in
    (the digest algorithm is not called). On every string of 8 to 72 code
    units it returns the digest that [bcrypt.hash] computes with 12 rounds. *)
Theorem hashPassword_fails_exactly_when_invalid (v : JsVal) (w : W)
    (Hbcrypt : forall s, v = JsString s ->
                 is_throw (fst (bcrypt_hash s SALT_ROUNDS w)) = false) :
  (is_throw (fst (hashPassword v w)) = true <-> plaintext_ok v = false)
  /\ (plaintext_ok v = false ->
      hashPassword v w = (Throw (ValidationError v), w))
  /\ (plaintext_ok v = true ->
      exists s digest w',
        v = JsString s
        /\ 8 <= List.length s <= 72
        /\ bcrypt_hash s 12%float w = (Ok digest, w')
        /\ hashPassword v w = (Ok digest, w')).
Proof.
  assert (Hacc : plaintext_ok v = true ->
                 exists s digest w',
                   v = JsString s
                   /\ 8 <= List.length s <= 72
                   /\ bcrypt_hash s 12%float w = (Ok digest, w')
                   /\ hashPassword v w = (Ok digest, w')).
  { intros Hok. destruct v as [ | | b | x | s | ms | props ]; try discriminate.
    pose proof (hashPassword_accepts s w Hok) as Hrun.
    specialize (Hbcrypt s eq_refl).
    destruct (bcrypt_hash s SALT_ROUNDS w) as [[digest | e] w'] eqn:Hh;
      [ | discriminate ].
    unfold plaintext_ok in Hok. apply andb_true_iff in Hok.
    destruct Hok as [Hlo Hhi]. apply Nat.leb_le in Hlo, Hhi.
    exists s, digest, w'. repeat split; auto. }
  split; [ | split; [ apply hashPassword_refuses | exact Hacc ] ].
  destruct (plaintext_ok v) eqn:Hok.
  - destruct (Hacc eq_refl) as (s & digest & w' & _ & _ & _ & Hrun).
    rewrite Hrun. cbn. split; discriminate.
  - rewrite (hashPassword_refuses v w Hok). cbn. tauto.
Qed.

(** *** verifyPassword *)

(** The one error [verifyPassword] throws. *)
Definition VerificationError : Exn := JsError msg_verification_failed.

(** The ways a verification fails. *)
Inductive VerifyFailure (password hashedPassword : JsVal) (w : W) : Prop :=
| BadPlaintext :
    truthy password = false \/ typeof_string password = false ->
    VerifyFailure password hashedPassword w
| BadDigest :
    truthy hashedPassword = false \/ typeof_string hashedPassword = false ->
    VerifyFailure password hashedPassword w
| CompareError (p h : jsstring) (e : Exn) :
    password = JsString p ->
    hashedPassword = JsString h ->
    fst (bcrypt_compare p h w) = Throw e ->
    VerifyFailure password hashedPassword w.

(** What a call of [verifyPassword] comes to. *)
Lemma verifyPassword_run (password hashedPassword : JsVal) (w : W) :
  (exists p h b w',
      password = JsString p /\ hashedPassword = JsString h
      /\ p <> [] /\ h <> []
      /\ bcrypt_compare p h w = (Ok b, w')
      /\ verifyPassword password hashedPassword w = (Ok b, w'))
  \/ (VerifyFailure password hashedPassword w
      /\ exists w', verifyPassword password hashedPassword w
                    = (Throw VerificationError, w')).
Proof.
  unfold verifyPassword, VerificationError. unfold_m.
  destruct (negb (truthy password) || negb (typeof_string password)) eqn:Hp.
  { right. split; [ | eexists; reflexivity ].
    apply BadPlaintext. apply orb_true_iff in Hp.
    destruct Hp as [Hp | Hp]; apply negb_true_iff in Hp; auto. }
  destruct (negb (truthy hashedPassword) || negb (typeof_string hashedPassword))
    eqn:Hh.
  { right. split; [ | eexists; reflexivity ].
    apply BadDigest. apply orb_true_iff in Hh.
    destruct Hh as [Hh | Hh]; apply negb_true_iff in Hh; auto. }
  apply orb_false_iff in Hp, Hh.
  destruct Hp as [Hp1 Hp2], Hh as [Hh1 Hh2].
  apply negb_false_iff in Hp1, Hp2, Hh1, Hh2.
  destruct password as [ | | | | p | | ]; try discriminate.
  destruct hashedPassword as [ | | | | h | | ]; try discriminate.
  destruct (bcrypt_compare p h w) as [[b | e] w'] eqn:Hc.
  - left. exists p, h, b, w'. repeat split; auto.
    + intros ->. discriminate.
    + intros ->. discriminate.
  - right. split; [ | eexists; reflexivity ].
    apply CompareError with (p := p) (h := h) (e := e); auto.
    now rewrite Hc.
Qed.

(** C4. [verifyPassword] throws in every failure mode (a plaintext or a
    digest that is empty or not a string, an error of [bcrypt.compare]) and
    in no other case, and whatever it throws is the one [Error] with the
    message [Password verification failed]: two failing runs throw equal
    errors. *)
Theorem verifyPassword_one_generic_error
    (password hashedPassword : JsVal) (w : W) :
  (VerifyFailure password hashedPassword w <->
   exists e, fst (verifyPassword password hashedPassword w) = Throw e)
  /\ (forall e, fst (verifyPassword password hashedPassword w) = Throw e ->
             e = JsError (lit "Password verification failed"))
  /\ (forall password' hashedPassword' w' e e',
        fst (verifyPassword password hashedPassword w) = Throw e ->
        fst (verifyPassword password' hashedPassword' w') = Throw e' ->
        e = e').
Proof.
  assert (G : forall p h w0 e,
             fst (verifyPassword p h w0) = Throw e -> e = VerificationError).
  { intros p h w0 e He.
    destruct (verifyPassword_run p h w0)
      as [(p' & h' & b & w' & _ & _ & _ & _ & _ & Hrun) | [_ [w' Hrun]]];
      rewrite Hrun in He; cbn in He; congruence. }
  split; [ | split ].
  - split.
    + intros Hf.
      destruct (verifyPassword_run password hashedPassword w)
        as [(p & h & b & w' & Hp & Hh & Hpne & Hhne & Hc & _) | [_ [w' Hrun]]].
      * exfalso. subst. destruct Hf as [[Ht | Ht] | [Ht | Ht] | p' h' e Ep Eh Hc'].
        -- destruct p; [congruence | discriminate].
        -- discriminate.
        -- destruct h; [congruence | discriminate].
        -- discriminate.
        -- injection Ep as <-. injection Eh as <-. rewrite Hc in Hc'. discriminate.
      * exists VerificationError. now rewrite Hrun.
    + intros [e He].
      destruct (verifyPassword_run password hashedPassword w)
        as [(p & h & b & w' & _ & _ & _ & _ & _ & Hrun) | [Hf _]]; auto.
      rewrite Hrun in He. discriminate.
  - intros e He. apply (G _ _ _ _ He).
  - intros p' h' w' e e' He He'.
    rewrite (G _ _ _ _ He), (G _ _ _ _ He'). reflexivity.
Qed.

(** *** Round trip *)

(** The contract of bcryptjs that the round trip rests on: a digest that
    [bcrypt.hash] returned for a plaintext is a non-empty string, and
    [bcrypt.compare] of that plaintext with that digest resolves to [true]
    whenever it is asked. *)
Definition bcrypt_round_trip : Prop :=
  forall (p : jsstring) (rounds : float) (w w1 : W) (digest : jsstring),
    bcrypt_hash p rounds w = (Ok digest, w1) ->
    digest <> []
    /\ forall w2, exists w3, bcrypt_compare p digest w2 = (Ok true, w3).

(** C8. For every plaintext [p] of 8 to 72 code units, when the digest
    algorithm keeps its contract and does not error on [p], [hashPassword p]
    returns a digest and [verifyPassword] of [p] against that digest returns
    [true], whenever it is called afterwards. *)
Theorem verifyPassword_of_hashPassword
    (Hcontract : bcrypt_round_trip)
    (p : jsstring) (Hlen : 8 <= List.length p <= 72) (w : W)
    (Hbcrypt : is_throw (fst (bcrypt_hash p SALT_ROUNDS w)) = false) :
  exists digest w1,
    hashPassword (JsString p) w = (Ok digest, w1)
    /\ forall w2, exists w3,
         verifyPassword (JsString p) (JsString digest) w2 = (Ok true, w3).
Proof.
  assert (Hok : plaintext_ok (JsString p) = true).
  { unfold plaintext_ok. apply andb_true_iff. split; apply Nat.leb_le; lia. }
  pose proof (hashPassword_accepts p w Hok) as Hrun.
  destruct (bcrypt_hash p SALT_ROUNDS w) as [[digest | e] w1] eqn:Hh;
    [ | discriminate ].
  exists digest, w1. split; [exact Hrun | ].
  destruct (Hcontract _ _ _ _ _ Hh) as [Hne Hcmp].
  intros w2. destruct (Hcmp w2) as [w3 Hc]. exists w3.
  destruct (verifyPassword_run (JsString p) (JsString digest) w2)
    as [(p' & h' & b & w' & Ep & Eh & _ & _ & Hc' & Hv) | [Hf _]].
  - injection Ep as <-. injection Eh as <-. rewrite Hc in Hc'.
    injection Hc' as <- <-. exact Hv.
  - exfalso. destruct Hf as [[Ht | Ht] | [Ht | Ht] | p' h' e Ep Eh Hc'].
    + destruct p; [cbn in Hlen; lia | discriminate].
    + discriminate.
    + destruct digest; [congruence | discriminate].
    + discriminate.
    + injection Ep as <-. injection Eh as <-. rewrite Hc in Hc'. discriminate.
Qed.

(** *** generateSecurePassword *)


(** The same bound on the machine, at the largest double below 1: its
    product with 70, rounded to nearest, is below 70. Rounding is monotone,
    so no smaller draw does worse. *)
Remark largest_draw_stays_below_70 :
  PrimFloat.ltb (PrimFloat.mul 0x1.fffffffffffffp-1%float 70%float) 70%float
  = true
  /\ PrimFloat.ltb 0x1.fffffffffffffp-1%float 1%float = true
  /\ PrimFloat.next_up 0x1.fffffffffffffp-1%float = 1%float.
Proof. repeat split; vm_compute; reflexivity. Qed.







End WithCollaborators.

End PasswordFacts.

(* ================================================================== *)
(** ** Properties of the credential authenticator *)
(* ================================================================== *)

Module AuthFacts.
Import Password Auth PasswordFacts.

Section WithCollaborators.
Context {W : Type} `{Collaborators W}.

Lemma call_toLowerCase_run (v : JsVal) (w : W) :
  (exists s, v = JsString s /\ call_toLowerCase v w = (Ok (toLowerCase s), w))
  \/ (typeof_string v = false /\ exists e, call_toLowerCase v w = (Throw e, w)).
Proof.
  destruct v; cbn; unfold_m; eauto.
Qed.

(** The rehash never throws: its [catch] block only logs. *)
Lemma rehash_run (credentials_password : JsVal) (user : UserRow) (w : W) :
  match rehash_attempt credentials_password user w with
  | (Ok _, w') => rehash credentials_password user w = (Ok tt, w')
  | (Throw e, w') =>
      rehash credentials_password user w =
        (Ok tt,
         console_error (LogCaught "Failed to rehash password during login:" e) w')
  end.
Proof.
  unfold rehash. unfold_m.
  destruct (rehash_attempt credentials_password user w) as [[[] | e] w'];
    reflexivity.
Qed.

Lemma rehash_returns (credentials_password : JsVal) (user : UserRow) (w : W) :
  exists w', rehash credentials_password user w = (Ok tt, w').
Proof.
  pose proof (rehash_run credentials_password user w) as Hr.
  destruct (rehash_attempt credentials_password user w) as [[u | e] w'];
    eauto.
Qed.

(** A login that goes through: the credentials name a string email and a
    password, the lookup finds a row with a stored digest, and the password
    verifies against it. *)
Definition Verified (credentials : JsVal) (w : W) (user : UserRow) (w2 : W)
  : Prop :=
  exists (s stored : jsstring) (w1 : W),
    opt_prop credentials "email" = JsString s
    /\ truthy (opt_prop credentials "email") = true
    /\ truthy (opt_prop credentials "password") = true
    /\ prisma_user_findUnique (toLowerCase s) w = (Ok (Some user), w1)
    /\ password user = Some stored
    /\ no_password (password user) = false
    /\ verifyPassword (opt_prop credentials "password")
                      (nullable JsString (password user)) w1 = (Ok true, w2).

(** Every run of the attempt: it returns [null], or it throws, or the login
    is verified and it returns the object made from the row. *)
Lemma attempt_run (credentials : JsVal) (w : W) (o : Outcome JsVal) (w' : W) :
  attempt credentials w = (o, w') ->
  o = Ok JsNull
  \/ (exists e, o = Throw e)
  \/ (exists user w2, Verified credentials w user w2
                      /\ o = Ok (returned_user user)).
Proof.
  intros Hrun. unfold attempt in Hrun. cbv zeta in Hrun.
  set (em := opt_prop credentials "email") in *.
  set (pw := opt_prop credentials "password") in *.
  unfold_m.
  destruct (negb (truthy em) || negb (truthy pw)) eqn:Hmiss.
  { injection Hrun as <- <-. left. reflexivity. }
  apply orb_false_iff in Hmiss. destruct Hmiss as [Hem Hpw].
  apply negb_false_iff in Hem, Hpw.
  destruct (call_toLowerCase_run em w) as [(s & Es & Hlow) | (_ & e & Hlow)];
    rewrite Hlow in Hrun.
  2: { injection Hrun as <- <-. right. left. eauto. }
  destruct (prisma_user_findUnique (toLowerCase s) w)
    as [[[user | ] | e] w1] eqn:Hfind.
  3: { injection Hrun as <- <-. right. left. eauto. }
  2: { injection Hrun as <- <-. left. reflexivity. }
  destruct (no_password (password user)) eqn:Hnp.
  { injection Hrun as <- <-. left. reflexivity. }
  destruct (verifyPassword pw (nullable JsString (password user)) w1)
    as [[[ | ] | e] w2] eqn:Hver; cbn [negb] in Hrun.
  3: { injection Hrun as <- <-. right. left. eauto. }
  2: { injection Hrun as <- <-. left. reflexivity. }
  destruct (password user) as [stored | ] eqn:Hstored; [ | discriminate Hnp ].
  assert (Hv : Verified credentials w user w2).
  { exists s, stored, w1. fold em pw. rewrite Hstored. repeat split; auto. }
  right. right. exists user, w2. split; [exact Hv | ].
  destruct (shouldRehashPassword_returns stored w2) as (b & w3 & Hsr).
  rewrite Hsr in Hrun.
  destruct b.
  - destruct (rehash_returns pw user
                (console_log (LogAbout "Rehashing password for user: " em) w3))
      as [w4 Hre].
    rewrite Hre in Hrun. injection Hrun as <- <-. reflexivity.
  - injection Hrun as <- <-. reflexivity.
Qed.

(** [authorize] returns what the attempt returns, and [null] when the
    attempt throws. *)
Lemma authorize_run (credentials : JsVal) (w : W) :
  match attempt credentials w with
  | (Ok v, w') => authorize credentials w = (Ok v, w')
  | (Throw e, w') =>
      authorize credentials w =
        (Ok JsNull, console_error (LogCaught "Authentication error:" e) w')
  end.
Proof.
  unfold authorize. unfold_m.
  destruct (attempt credentials w) as [[v | e] w']; reflexivity.
Qed.

(** The ways a login attempt fails. *)
Inductive LoginFailure (credentials : JsVal) (w : W) : Prop :=
| MissingCredentials :
    truthy (opt_prop credentials "email") = false
    \/ truthy (opt_prop credentials "password") = false ->
    LoginFailure credentials w
| UserNotFound (s : jsstring) (w1 : W) :
    opt_prop credentials "email" = JsString s ->
    prisma_user_findUnique (toLowerCase s) w = (Ok None, w1) ->
    LoginFailure credentials w
| NoStoredPassword (s : jsstring) (user : UserRow) (w1 : W) :
    opt_prop credentials "email" = JsString s ->
    prisma_user_findUnique (toLowerCase s) w = (Ok (Some user), w1) ->
    password user = None \/ password user = Some [] ->
    LoginFailure credentials w
| WrongPassword (s : jsstring) (user : UserRow) (w1 w2 : W) :
    opt_prop credentials "email" = JsString s ->
    prisma_user_findUnique (toLowerCase s) w = (Ok (Some user), w1) ->
    verifyPassword (opt_prop credentials "password")
                   (nullable JsString (password user)) w1 = (Ok false, w2) ->
    LoginFailure credentials w
| EmailNotAString :
    typeof_string (opt_prop credentials "email") = false ->
    LoginFailure credentials w
| LookupError (s : jsstring) (e : Exn) (w1 : W) :
    opt_prop credentials "email" = JsString s ->
    prisma_user_findUnique (toLowerCase s) w = (Throw e, w1) ->
    LoginFailure credentials w
| VerifyError (s : jsstring) (user : UserRow) (e : Exn) (w1 w2 : W) :
    opt_prop credentials "email" = JsString s ->
    prisma_user_findUnique (toLowerCase s) w = (Ok (Some user), w1) ->
    verifyPassword (opt_prop credentials "password")
                   (nullable JsString (password user)) w1 = (Throw e, w2) ->
    LoginFailure credentials w
| AttemptThrows (e : Exn) (w1 : W) :
    attempt credentials w = (Throw e, w1) ->
    LoginFailure credentials w.

(** A verified login is none of the failures. *)
Lemma Verified_not_failure (credentials : JsVal) (w : W) (user : UserRow)
    (w2 w' : W) :
  Verified credentials w user w2 ->
  attempt credentials w = (Ok (returned_user user), w') ->
  ~ LoginFailure credentials w.
Proof.
  intros (s & stored & w1 & Es & Hem & Hpw & Hfind & Hstored & Hnp & Hver) Hrun Hf.
  destruct Hf as [ [Hm | Hm] | s' w1' Es' Hf | s' user' w1' Es' Hf Hp
                 | s' user' w1' w2' Es' Hf Hv | Hn | s' e w1' Es' Hf
                 | s' user' e w1' w2' Es' Hf Hv | e w1' Ht ];
    try congruence;
    try (rewrite Es in Es'; injection Es' as <-; rewrite Hfind in Hf;
         try discriminate; injection Hf as <- <-; try congruence).
  - destruct Hp as [Hp | Hp]; rewrite Hp in Hnp; discriminate.
  - rewrite Es in Hn. discriminate.
Qed.

(** C1. [authorize] never throws: on every credentials value and in every
    world it returns a value. In every failure mode of the attempt (email or
    password missing, no user for the email, a user without a stored
    password, a password that does not verify, an email that is not a
    string, an error of the lookup or of the verification, or anything else
    the attempt throws) the value is [null]. *)
Theorem authorize_null_on_every_failure (credentials : JsVal) (w : W) :
  (exists v w', authorize credentials w = (Ok v, w'))
  /\ (LoginFailure credentials w ->
      exists w', authorize credentials w = (Ok JsNull, w')).
Proof.
  pose proof (authorize_run credentials w) as Hauth.
  destruct (attempt credentials w) as [[v | e] w'] eqn:Hrun.
  - split; [eauto | ].
    intros Hfail.
    destruct (attempt_run credentials w Hrun)
      as [Hnull | [[e He] | (user & w2 & Hv & Hobj)]].
    + injection Hnull as ->. eauto.
    + discriminate.
    + injection Hobj as ->. exfalso.
      exact (Verified_not_failure Hv Hrun Hfail).
  - split; eauto.
Qed.

(** C2. Whenever [authorize] returns a value other than [null], that value
    is the object with exactly the six properties [id], [email], [name],
    [role], [emailVerified] and [image], each taken from the row that the
    lookup found for the lower-cased email; it has no [password]
    property. *)
Theorem authorize_returns_public_identity
    (credentials : JsVal) (w : W) (v : JsVal) (w' : W)
    (Hrun : authorize credentials w = (Ok v, w'))
    (Hsuccess : v <> JsNull) :
  exists (s : jsstring) (user : UserRow) (w1 : W),
    opt_prop credentials "email" = JsString s
    /\ prisma_user_findUnique (toLowerCase s) w = (Ok (Some user), w1)
    /\ v = JsObject
             [ ("id", JsString (id user));
               ("email", JsString (email user));
               ("name", nullable JsString (name user));
               ("role", JsString (Types.role_string (role user)));
               ("emailVerified", nullable JsDate (emailVerified user));
               ("image", nullable JsString (image user)) ]
    /\ get_prop v "password" = Ok JsUndefined.
Proof.
  pose proof (authorize_run credentials w) as Hauth.
  destruct (attempt credentials w) as [[v0 | e] w0] eqn:Hatt.
  - rewrite Hauth in Hrun. injection Hrun as <- <-.
    destruct (attempt_run credentials w Hatt)
      as [Hnull | [[e He] | (user & w2 & Hv & Hobj)]].
    + congruence.
    + discriminate.
    + injection Hobj as ->.
      destruct Hv as (s & stored & w1 & Es & _ & _ & Hfind & _).
      exists s, user, w1. repeat split; auto.
  - rewrite Hauth in Hrun. congruence.
Qed.

(** The ways the rehash fails: hashing the plaintext again throws, or
    persisting the new digest throws. *)
Inductive RehashFailure (credentials_password : JsVal) (user : UserRow)
    (w : W) (e : Exn) (w' : W) : Prop :=
| HashingFails :
    hashPassword credentials_password w = (Throw e, w') ->
    RehashFailure credentials_password user w e w'
| PersistingFails (digest : jsstring) (w1 : W) :
    hashPassword credentials_password w = (Ok digest, w1) ->
    prisma_user_update (id user) digest w1 = (Throw e, w') ->
    RehashFailure credentials_password user w e w'.

Lemma rehash_attempt_fails (credentials_password : JsVal) (user : UserRow)
    (w : W) (e : Exn) (w' : W) :
  RehashFailure credentials_password user w e w' ->
  rehash_attempt credentials_password user w = (Throw e, w').
Proof.
  unfold rehash_attempt. unfold_m.
  intros [Hh | digest w1 Hh Hu]; rewrite Hh; [reflexivity | exact Hu].
Qed.

(** C3. When the login is verified, the advisor asks for a rehash, and the
    rehash fails (in hashing or in persisting), [authorize] still returns
    the object of the user, not [null], and throws nothing; the error went
    to [console.error]. *)
Theorem rehash_failure_keeps_login
    (credentials : JsVal) (w : W) (user : UserRow) (stored : jsstring)
    (w2 w3 w4 : W) (e : Exn)
    (Hverified : Verified credentials w user w2)
    (Hstored : password user = Some stored)
    (Hadvice : shouldRehashPassword stored w2 = (Ok true, w3))
    (Hfail : RehashFailure
               (opt_prop credentials "password") user
               (console_log (LogAbout "Rehashing password for user: "
                                      (opt_prop credentials "email")) w3)
               e w4) :
  authorize credentials w =
    (Ok (returned_user user),
     console_error (LogCaught "Failed to rehash password during login:" e) w4)
  /\ returned_user user <> JsNull.
Proof.
  split; [ | discriminate ].
  destruct Hverified
    as (s & stored' & w1 & Es & Hem & Hpw & Hfind & _ & Hnp & Hver).
  pose proof (rehash_attempt_fails Hfail) as Hatt.
  pose proof (rehash_run (opt_prop credentials "password") user
                (console_log (LogAbout "Rehashing password for user: "
                                       (opt_prop credentials "email")) w3))
    as Hre.
  rewrite Hatt in Hre.
  unfold authorize, attempt. cbv zeta. unfold_m.
  rewrite Hem, Hpw. cbn [negb orb].
  rewrite Es at 1. cbn [call_toLowerCase]. unfold ret.
  rewrite Hfind, Hnp, Hver. cbn [negb].
  rewrite Hstored, Hadvice, Hre. reflexivity.
Qed.

End WithCollaborators.

End AuthFacts.

(* ================================================================== *)
(** ** The theorems at work on the test doubles *)
(* ================================================================== *)

Module Instances.
Import Password Auth PasswordFacts AuthFacts Doubles.

#[local] Existing Instance doubles.

(** The double keeps the contract of the round trip. *)
Lemma doubles_round_trip : @bcrypt_round_trip World doubles.
Proof.
  intros p rounds w w1 digest Hh. cbn in Hh. unfold double_hash in Hh.
  injection Hh as <- <-. split; [discriminate | ].
  intros w2. exists w2. cbn. unfold double_compare, jsstring_eqb.
  destruct (list_eq_dec N.eq_dec p p); [reflexivity | congruence].
Qed.


Definition seventy_two : jsstring := repeat 65%N 72.
Definition seventy_three : jsstring := repeat 65%N 73.

(** A plaintext of 72 code units is hashed. *)
Lemma hashPassword_at_72 :
  (forall s, JsString seventy_two = JsString s ->
             is_throw (fst (bcrypt_hash s SALT_ROUNDS world0)) = false)
  /\ is_throw (fst (hashPassword (JsString seventy_two) world0)) = false.
Proof.
  assert (Hb : forall s, JsString seventy_two = JsString s ->
                 is_throw (fst (bcrypt_hash s SALT_ROUNDS world0)) = false).
  { intros s _. reflexivity. }
  split; [exact Hb | ].
  destruct (@hashPassword_fails_exactly_when_invalid World doubles
              (JsString seventy_two) world0 Hb) as (_ & _ & Haccept).
  destruct (Haccept eq_refl) as (s & digest & w' & _ & _ & _ & Hrun).
  rewrite Hrun. reflexivity.
Defined.

(** A plaintext of 73 code units, the empty string, [null] and a number are
    refused with their validation errors. *)
Example hashPassword_at_73 :
  hashPassword (JsString seventy_three) world0 =
    (Throw (JsError (lit "Password hashing failed: Password must be 72 characters or less")),
     world0).
Proof. vm_compute. reflexivity. Qed.

Example hashPassword_empty :
  hashPassword (JsString []) world0 =
    (Throw (JsError (lit "Password hashing failed: Password must be a non-empty string")),
     world0).
Proof. vm_compute. reflexivity. Qed.

Example hashPassword_null :
  hashPassword JsNull world0 =
    (Throw (JsError (lit "Password hashing failed: Password must be a non-empty string")),
     world0).
Proof. vm_compute. reflexivity. Qed.

Example hashPassword_short :
  hashPassword (JsString (lit "short")) world0 =
    (Throw (JsError (lit "Password hashing failed: Password must be at least 8 characters long")),
     world0).
Proof. vm_compute. reflexivity. Qed.

Example hashPassword_8 :
  fst (hashPassword (JsString (lit "Pass123!")) world0) =
    Ok (12%N :: 1%N :: lit "Pass123!").
Proof. vm_compute. reflexivity. Qed.

(** The round trip on [Secret123!]. *)
Lemma round_trip_at_Secret123 :
  8 <= List.length (lit "Secret123!") <= 72
  /\ exists digest w1,
       hashPassword (JsString (lit "Secret123!")) world0 = (Ok digest, w1)
       /\ forall w2, exists w3,
            verifyPassword (JsString (lit "Secret123!")) (JsString digest) w2
            = (Ok true, w3).
Proof.
  assert (Hlen : 8 <= List.length (lit "Secret123!") <= 72) by (cbn; lia).
  split; [exact Hlen | ].
  apply (@verifyPassword_of_hashPassword World doubles doubles_round_trip
           (lit "Secret123!") Hlen world0).
  reflexivity.
Defined.


Example generateSecurePassword_five :
  fst (generateSecurePassword (Some 5%Z) world0) = Ok (lit "ABCDE").
Proof. vm_compute. reflexivity. Qed.

(** *** Logins *)

Definition alice_login : JsVal := login "Alice@Example.com" "Secret123!".

(** Alice logs in: the object has her public columns and no digest. *)
Lemma authorize_alice :
  authorize alice_login world0
    = (Ok (returned_user alice), snd (authorize alice_login world0))
  /\ returned_user alice <> JsNull
  /\ exists (s : jsstring) (user : UserRow) (w1 : World),
       opt_prop alice_login "email" = JsString s
       /\ prisma_user_findUnique (toLowerCase s) world0 = (Ok (Some user), w1)
       /\ returned_user alice =
            JsObject
              [ ("id", JsString (id user));
                ("email", JsString (email user));
                ("name", nullable JsString (name user));
                ("role", JsString (Types.role_string (role user)));
                ("emailVerified", nullable JsDate (emailVerified user));
                ("image", nullable JsString (image user)) ]
       /\ get_prop (returned_user alice) "password" = Ok JsUndefined.
Proof.
  assert (Hrun : authorize alice_login world0
                 = (Ok (returned_user alice), snd (authorize alice_login world0))).
  { vm_compute. reflexivity. }
  assert (Hsuccess : returned_user alice <> JsNull) by discriminate.
  split; [exact Hrun | split; [exact Hsuccess | ] ].
  exact (@authorize_returns_public_identity World doubles alice_login world0
           (returned_user alice) (snd (authorize alice_login world0))
           Hrun Hsuccess).
Defined.

(** The rehash of Alice's cost-10 digest stored the new digest. *)
Example authorize_alice_rehashed :
  List.map password (users (snd (authorize alice_login world0)))
    = [ Some (12%N :: 1%N :: lit "Secret123!"); None ].
Proof. vm_compute. reflexivity. Qed.

Definition alice_verified : Verified alice_login world_read_only alice world_read_only.
Proof.
  exists (lit "Alice@Example.com"), (10%N :: 0%N :: lit "Secret123!"),
    world_read_only.
  repeat split; vm_compute; reflexivity.
Defined.

Definition storage_error : Exn := JsError (lit "Can't reach database server").

(** The world of the failed write: the rehash was announced and a salt was
    used. *)
Definition world_after_hash : World :=
  {| users := [alice; bob]; salts := 2;
     console := [ LogAbout "Rehashing password for user: "
                           (JsString (lit "Alice@Example.com")) ];
     seed := 0; storage_down := false; storage_read_only := true |}.

Definition alice_rehash_fails :
  RehashFailure (opt_prop alice_login "password") alice
    (console_log (LogAbout "Rehashing password for user: "
                           (opt_prop alice_login "email")) world_read_only)
    storage_error world_after_hash.
Proof.
  apply PersistingFails
    with (digest := 12%N :: 1%N :: lit "Secret123!") (w1 := world_after_hash);
    vm_compute; reflexivity.
Defined.

(** Alice logs in while the storage refuses the rehash: same object, and
    the error is on the console. *)
Lemma authorize_alice_read_only :
  Verified alice_login world_read_only alice world_read_only
  /\ authorize alice_login world_read_only =
       (Ok (returned_user alice),
        console_error
          (LogCaught "Failed to rehash password during login:" storage_error)
          world_after_hash)
  /\ returned_user alice <> JsNull.
Proof.
  split; [exact alice_verified | ].
  exact (@rehash_failure_keeps_login World doubles alice_login world_read_only
           alice (10%N :: 0%N :: lit "Secret123!")
           world_read_only world_read_only world_after_hash storage_error
           alice_verified eq_refl eq_refl alice_rehash_fails).
Defined.

(** A wrong password, with the storage up: [null]. *)
Lemma authorize_wrong_password :
  LoginFailure (login "alice@example.com" "WrongPass1!") world0
  /\ exists w', authorize (login "alice@example.com" "WrongPass1!") world0
                = (Ok JsNull, w').
Proof.
  assert (Hf : LoginFailure (login "alice@example.com" "WrongPass1!") world0).
  { apply WrongPassword
      with (s := lit "alice@example.com") (user := alice)
           (w1 := world0) (w2 := world0);
      vm_compute; reflexivity. }
  split; [exact Hf | ].
  exact (proj2 (@authorize_null_on_every_failure World doubles
                  (login "alice@example.com" "WrongPass1!") world0) Hf).
Defined.

(** The other failure modes, run on the doubles. *)
Example authorize_no_credentials :
  fst (authorize JsUndefined world0) = Ok JsNull.
Proof. vm_compute. reflexivity. Qed.

Example authorize_unknown_user :
  fst (authorize (login "carol@example.com" "Secret123!") world0) = Ok JsNull.
Proof. vm_compute. reflexivity. Qed.

Example authorize_oauth_only_user :
  fst (authorize (login "bob@example.com" "Secret123!") world0) = Ok JsNull.
Proof. vm_compute. reflexivity. Qed.

Example authorize_storage_down :
  fst (authorize alice_login world_down) = Ok JsNull.
Proof. vm_compute. reflexivity. Qed.

Example authorize_email_not_a_string :
  fst (authorize (JsObject [ ("email", JsNumber 5%float);
                             ("password", JsString (lit "Secret123!")) ])
                 world0) = Ok JsNull.
Proof. vm_compute. reflexivity. Qed.

(** *** Verification *)

(** An empty plaintext and a digest the algorithm rejects fail with equal
    errors. *)
Lemma verifyPassword_failures_alike :
  exists e e',
    fst (verifyPassword (JsString []) (JsString (lit "$2a$12$digest")) world0)
      = Throw e
    /\ fst (verifyPassword (JsString (lit "Secret123!")) (JsString [36%N])
              world_down)
      = Throw e'
    /\ e = e'.
Proof.
  exists (JsError (lit "Password verification failed")),
    (JsError (lit "Password verification failed")).
  assert (H1 : fst (verifyPassword (JsString [])
                      (JsString (lit "$2a$12$digest")) world0)
               = Throw (JsError (lit "Password verification failed")))
    by (vm_compute; reflexivity).
  assert (H2 : fst (verifyPassword (JsString (lit "Secret123!"))
                      (JsString [36%N]) world_down)
               = Throw (JsError (lit "Password verification failed")))
    by (vm_compute; reflexivity).
  split; [exact H1 | split; [exact H2 | ] ].
  exact (proj2 (proj2 (@verifyPassword_one_generic_error World doubles
                         (JsString []) (JsString (lit "$2a$12$digest"))
                         world0))
           _ _ _ _ _ H1 H2).
Defined.

Example verifyPassword_null_and_empty_digest :
  fst (verifyPassword JsNull (JsString (lit "$2a$12$digest")) world0)
    = Throw (JsError (lit "Password verification failed"))
  /\ fst (verifyPassword (JsString (lit "Secret123!")) (JsString []) world0)
    = Throw (JsError (lit "Password verification failed"))
  /\ fst (verifyPassword (JsString (lit "Secret123!")) JsNull world0)
    = Throw (JsError (lit "Password verification failed")).
Proof. repeat split; vm_compute; reflexivity. Qed.

(** *** The advisor and the guard, on the examples of the specification *)

Example shouldRehashPassword_cost_10 :
  fst (shouldRehashPassword (10%N :: 0%N :: lit "Secret123!") world0) = Ok true.
Proof. vm_compute. reflexivity. Qed.

Example shouldRehashPassword_cost_12 :
  fst (shouldRehashPassword (12%N :: 0%N :: lit "Secret123!") world0) = Ok false.
Proof. vm_compute. reflexivity. Qed.

Example shouldRehashPassword_unreadable :
  fst (shouldRehashPassword [] world0) = Ok true.
Proof. vm_compute. reflexivity. Qed.

Example isAuthenticated_examples :
  Types.isAuthenticated JsNull = Ok false
  /\ Types.isAuthenticated JsUndefined = Ok false
  /\ Types.isAuthenticated (JsObject [ ("user", JsUndefined) ]) = Ok false
  /\ Types.isAuthenticated (JsObject []) = Ok false
  /\ Types.isAuthenticated (JsNumber 5%float) = Ok false
  /\ Types.isAuthenticated
       (JsObject [ ("user", returned_user alice);
                   ("expires", JsString (lit "2026-01-01T00:00:00.000Z")) ])
     = Ok true.
Proof. repeat split. Qed.

(** The guard compares [session.user] with [undefined] only: a [null] user,
    which the declared type of a session does not have, passes. *)
Example isAuthenticated_null_user :
  Types.isAuthenticated (JsObject [ ("user", JsNull) ]) = Ok true.
Proof. reflexivity. Qed.

Example validatePasswordStrength_strong :
  validatePasswordStrength (lit "StrongP@ssw0rd123!")
    = {| isValid := true; errors := [] |}.
Proof. reflexivity. Qed.

End Instances.

(* ================================================================== *)
(** ** More of JavaScript: strict equality with a string, assignment *)
(* ================================================================== *)

Module JsOps.

Fixpoint string_eqb (a b : jsstring) : bool :=
  match a, b with
  | [], [] => true
  | x :: a', y :: b' => N.eqb x y && string_eqb a' b'
  | _, _ => false
  end.

(** [v === s] for a string [s]: [v] is a string of the same code units. *)
Definition strict_eq_string (v : JsVal) (s : jsstring) : bool :=
  match v with
  | JsString t => string_eqb t s
  | _ => false
  end.

(** The property list after [o.k = v]: the value of an existing property is
    replaced where it stands, a new property goes to the end. *)
Fixpoint assign (k : string) (v : JsVal) (props : list (string * JsVal))
  : list (string * JsVal) :=
  match props with
  | [] => [(k, v)]
  | (k', x) :: rest =>
      if String.eqb k k' then (k', v) :: rest else (k', x) :: assign k v rest
  end.

(** Assignment [o.k = v] in strict mode (the files are ES modules): a
    [TypeError] on [null], [undefined] and on a primitive. A [Date] keeps no
    own properties in this model, so an assignment to one is not recorded. *)
Definition set_prop (o : JsVal) (k : string) (v : JsVal) : Outcome JsVal :=
  match o with
  | JsObject props => Ok (JsObject (assign k v props))
  | JsDate ms => Ok (JsDate ms)
  | JsUndefined =>
      Throw (JsError (lit "Cannot set properties of undefined"))
  | JsNull =>
      Throw (JsError (lit "Cannot set properties of null"))
  | JsBool _ | JsNumber _ | JsString _ =>
      Throw (JsError (lit "Cannot create property on a primitive"))
  end.

(** Sequencing of steps that may throw. *)
Definition and_then {A B : Type} (o : Outcome A) (k : A -> Outcome B)
  : Outcome B :=
  match o with
  | Ok a => k a
  | Throw e => Throw e
  end.

End JsOps.
Import JsOps.

Notation "x <~ o ;; k" := (and_then o (fun x => k))
  (at level 61, o at next level, right associativity) : js_scope.

(* ================================================================== *)
(** ** src/types/auth.ts: the role guards *)
(* ================================================================== *)

Module Roles.
Import Types.

(** [user?.role === role] *)
Definition hasRole (user : JsVal) (role : UserRole) : bool :=
  strict_eq_string (opt_prop user "role") (role_string role).

(** [user?.role === 'ADMIN'] *)
Definition isAdmin (user : JsVal) : bool :=
  strict_eq_string (opt_prop user "role") (lit "ADMIN").

(** [user?.role === 'LANDLORD' || user?.role === 'ADMIN'] *)
Definition isLandlordOrAdmin (user : JsVal) : bool :=
  strict_eq_string (opt_prop user "role") (lit "LANDLORD")
  || strict_eq_string (opt_prop user "role") (lit "ADMIN").

End Roles.

(* ================================================================== *)
(** ** src/lib/auth.ts: the callbacks *)
(* ================================================================== *)

Module Callbacks.

(** The [session] callback. [session.user.id = ...] changes the object that
    [session.user] holds, and the callback returns [session]: the result is
    the session as it is after the two assignments. *)
Definition session (session user : JsVal) : Outcome JsVal :=
  session_user <~ get_prop session "user" ;;
  if truthy session_user && truthy user
  then
    user_id <~ get_prop user "id" ;;
    session_user <~ set_prop session_user "id" user_id ;;
    user_role <~ get_prop user "role" ;;
    session_user <~ set_prop session_user "role" user_role ;;
    set_prop session "user" session_user
  else Ok session.

(** The [jwt] callback: [token.role = user.role; token.id = user.id] when
    there is a user. *)
Definition jwt (token user : JsVal) : Outcome JsVal :=
  if truthy user
  then
    user_role <~ get_prop user "role" ;;
    token <~ set_prop token "role" user_role ;;
    user_id <~ get_prop user "id" ;;
    set_prop token "id" user_id
  else Ok token.

(** The two columns the [signIn] callback selects. *)
Record StatusRow : Type := {
  status_emailVerified : option Z;
  status_role : Types.UserRole
}.

Section WithCollaborators.
Context {W : Type} `{Collaborators W}.

(** [prisma.user.findUnique({ where: { email }, select: { emailVerified,
    role } })], with whatever [user.email] is. *)
Variable prisma_user_findUnique_status :
  JsVal -> W -> Outcome (option StatusRow) * W.

(** A step without effect on the world. *)
Definition lift {A : Type} (o : Outcome A) : M W A := fun w => (o, w).

(** The [signIn] callback. The two checks on [dbUser] are commented out in
    the source: the row is read and not used. *)
Definition signIn (user account profile : JsVal) : M W bool :=
  try_catch
    ((if strict_eq_string (opt_prop account "provider") (lit "credentials")
      then
        user_email <- lift (get_prop user "email") ;;
        dbUser <- prisma_user_findUnique_status user_email ;;
        ret tt
      else ret tt) ;;;
     ret true)
    (fun error =>
       effect (console_error (LogCaught "Sign in callback error:" error)) ;;;
       ret false).

End WithCollaborators.

End Callbacks.

(* ================================================================== *)
(** ** Properties of the role guards *)
(* ================================================================== *)

Module RolesFacts.
Import Types Roles Auth.

Lemma string_eqb_eq (a b : jsstring) : string_eqb a b = true <-> a = b.
Proof.
  revert b. induction a as [ | x a IH ]; intros [ | y b ]; cbn;
    try (split; [discriminate | discriminate]); [tauto | ].
  rewrite andb_true_iff, N.eqb_eq, IH. split.
  - intros [-> ->]. reflexivity.
  - intros E. injection E as -> ->. auto.
Qed.

Lemma string_eqb_refl (a : jsstring) : string_eqb a a = true.
Proof. now apply string_eqb_eq. Qed.

Lemma role_string_injective (r1 r2 : UserRole) :
  role_string r1 = role_string r2 -> r1 = r2.
Proof. destruct r1, r2; cbn; intros E; try reflexivity; discriminate. Qed.

(** What [hasRole] reads: the guard holds exactly for an object whose
    [role] property is the string of the role. *)
Lemma hasRole_true (user : JsVal) (r : UserRole) :
  hasRole user r = true <-> opt_prop user "role" = JsString (role_string r).
Proof.
  unfold hasRole, strict_eq_string.
  destruct (opt_prop user "role") as [ | | b | x | s | ms | props ];
    try (split; [discriminate | discriminate]).
  rewrite string_eqb_eq. split; [intros -> | intros E; injection E as -> ];
    reflexivity.
Qed.

(** X1. A user passes [hasRole] for at most one role. [isAdmin] is [hasRole]
    for ADMIN, [isLandlordOrAdmin] is [hasRole] for LANDLORD or for ADMIN, so
    an admin passes [isLandlordOrAdmin] and a tenant does not. [null],
    [undefined] and values without a [role] pass none of the guards. *)
Theorem role_guards_exclusive (user : JsVal) :
  (forall r1 r2, hasRole user r1 = true -> hasRole user r2 = true -> r1 = r2)
  /\ isAdmin user = hasRole user ADMIN
  /\ isLandlordOrAdmin user = (hasRole user LANDLORD || hasRole user ADMIN)
  /\ (isAdmin user = true -> isLandlordOrAdmin user = true)
  /\ (hasRole user TENANT = true -> isLandlordOrAdmin user = false)
  /\ (opt_prop user "role" = JsUndefined ->
      forall r, hasRole user r = false
                /\ isAdmin user = false /\ isLandlordOrAdmin user = false).
Proof.
  assert (Hex : forall r1 r2,
             hasRole user r1 = true -> hasRole user r2 = true -> r1 = r2).
  { intros r1 r2 H1 H2. apply hasRole_true in H1, H2.
    rewrite H1 in H2. injection H2 as E. now apply role_string_injective. }
  split; [exact Hex | ].
  split; [reflexivity | ]. split; [reflexivity | ].
  split; [ | split ].
  - unfold isAdmin, isLandlordOrAdmin. intros ->. apply orb_true_r.
  - intros Ht.
    change (isLandlordOrAdmin user)
      with (hasRole user LANDLORD || hasRole user ADMIN).
    destruct (hasRole user LANDLORD) eqn:Hl;
      [specialize (Hex _ _ Ht Hl); discriminate | ].
    destruct (hasRole user ADMIN) eqn:Ha;
      [specialize (Hex _ _ Ht Ha); discriminate | ].
    reflexivity.
  - intros Hu r. unfold hasRole, isAdmin, isLandlordOrAdmin. rewrite Hu.
    repeat split.
Qed.

(** X2. On the object that [authorize] returns for a row, the guards read
    the role of the row: [hasRole] holds for that role and no other,
    [isAdmin] exactly for an ADMIN row, [isLandlordOrAdmin] for every row
    that is not a TENANT. *)
Theorem role_guards_on_authorized_user (row : UserRow) :
  (forall r, hasRole (returned_user row) r = true <-> r = role row)
  /\ (isAdmin (returned_user row) = true <-> role row = ADMIN)
  /\ (isLandlordOrAdmin (returned_user row) = true <-> role row <> TENANT).
Proof.
  assert (Hr : forall r, hasRole (returned_user row) r = true <-> r = role row).
  { intros r. rewrite hasRole_true. cbn. split.
    - intros E. injection E as E. symmetry. now apply role_string_injective.
    - intros ->. reflexivity. }
  split; [exact Hr | split].
  - change (isAdmin (returned_user row)) with (hasRole (returned_user row) ADMIN).
    rewrite Hr. split; congruence.
  - change (isLandlordOrAdmin (returned_user row))
      with (hasRole (returned_user row) LANDLORD
            || hasRole (returned_user row) ADMIN).
    rewrite orb_true_iff, !Hr. destruct (role row); split;
      try congruence; try tauto; intros [E | E]; discriminate.
Qed.

End RolesFacts.

(* ================================================================== *)
(** ** Properties of the callbacks *)
(* ================================================================== *)

Module CallbacksFacts.
Import Types Roles Auth Callbacks RolesFacts.

(** *** Assignment and lookup *)

Lemma lookup_assign_same (k : string) (v : JsVal) (props : list (string * JsVal)) :
  lookup k (assign k v props) = Some v.
Proof.
  induction props as [ | [k' x] rest IH ]; cbn.
  - now rewrite String.eqb_refl.
  - destruct (String.eqb k k') eqn:E; cbn; rewrite E; auto.
Qed.

Lemma lookup_assign_other (k k' : string) (v : JsVal)
    (props : list (string * JsVal)) :
  k' <> k -> lookup k' (assign k v props) = lookup k' props.
Proof.
  intros Hne. induction props as [ | [k0 x] rest IH ]; cbn.
  - destruct (String.eqb k' k) eqn:E; [apply String.eqb_eq in E; congruence | ].
    reflexivity.
  - destruct (String.eqb k k0) eqn:E; cbn.
    + apply String.eqb_eq in E. subst k0.
      destruct (String.eqb k' k) eqn:E'; [apply String.eqb_eq in E'; congruence | ].
      reflexivity.
    + destruct (String.eqb k' k0); auto.
Qed.

(** Assigning the value a property already has changes nothing. *)
Lemma assign_present (k : string) (v : JsVal) (props : list (string * JsVal)) :
  lookup k props = Some v -> assign k v props = props.
Proof.
  induction props as [ | [k' x] rest IH ]; cbn; [discriminate | ].
  destruct (String.eqb k k') eqn:E.
  - intros Hv. injection Hv as ->. reflexivity.
  - intros Hv. now rewrite IH.
Qed.

(** Reading a property of a truthy value does not throw. *)
Lemma get_prop_truthy (v : JsVal) (k : string) :
  truthy v = true -> get_prop v k = Ok (opt_prop v k).
Proof.
  destruct v; cbn; try discriminate; try reflexivity.
  intros _. destruct (lookup k props); reflexivity.
Qed.

Definition is_primitive (v : JsVal) : bool :=
  match v with
  | JsBool _ | JsNumber _ | JsString _ => true
  | _ => false
  end.

(** *** The session callback *)

(** The callback on a session object whose [user] is an object, with a
    user: the two assignments. *)
Lemma session_assigns (sprops uprops : list (string * JsVal)) (user : JsVal) :
  lookup "user" sprops = Some (JsObject uprops) ->
  truthy user = true ->
  session (JsObject sprops) user =
    Ok (JsObject
          (assign "user"
             (JsObject (assign "role" (opt_prop user "role")
                          (assign "id" (opt_prop user "id") uprops)))
             sprops)).
Proof.
  intros Hu Ht. unfold session. cbn [get_prop and_then]. rewrite Hu.
  cbn [and_then truthy andb]. rewrite Ht.
  rewrite !get_prop_truthy by exact Ht. reflexivity.
Qed.

(** X3. When the session is an object whose [user] is an object and there is
    a user, the [session] callback returns the session with [user.id] and
    [user.role] taken from the user; every other property of [session.user]
    (so also the absence of a [password]) and every other property of the
    session is as it was. *)
Theorem session_copies_id_and_role
    (sprops uprops : list (string * JsVal)) (user : JsVal)
    (Huser : lookup "user" sprops = Some (JsObject uprops))
    (Htruthy : truthy user = true) :
  exists sprops' uprops',
    session (JsObject sprops) user = Ok (JsObject sprops')
    /\ lookup "user" sprops' = Some (JsObject uprops')
    /\ lookup "id" uprops' = Some (opt_prop user "id")
    /\ lookup "role" uprops' = Some (opt_prop user "role")
    /\ (forall k, k <> "id" -> k <> "role" -> lookup k uprops' = lookup k uprops)
    /\ (forall k, k <> "user" -> lookup k sprops' = lookup k sprops).
Proof.
  eexists. eexists. split; [apply (session_assigns _ _ Huser Htruthy) | ].
  split; [apply lookup_assign_same | ].
  split; [ | split; [apply lookup_assign_same | split ] ].
  - rewrite lookup_assign_other by discriminate. apply lookup_assign_same.
  - intros k Hid Hrole. now rewrite !lookup_assign_other.
  - intros k Hk. now rewrite lookup_assign_other.
Qed.

(** Every run of the callback. *)
Lemma session_run (s user : JsVal) :
  match s with
  | JsUndefined | JsNull => exists e, session s user = Throw e
  | _ =>
      if truthy (opt_prop s "user") && truthy user
      then
        match opt_prop s "user" with
        | JsObject uprops =>
            exists sprops,
              s = JsObject sprops
              /\ lookup "user" sprops = Some (JsObject uprops)
              /\ session s user =
                   Ok (JsObject
                         (assign "user"
                            (JsObject (assign "role" (opt_prop user "role")
                                         (assign "id" (opt_prop user "id") uprops)))
                            sprops))
        | JsDate _ => session s user = Ok s
        | _ => exists e, session s user = Throw e
        end
      else session s user = Ok s
  end.
Proof.
  destruct s as [ | | b | x | str | ms | sprops ];
    try (eexists; reflexivity); try reflexivity.
  unfold session. cbn [get_prop opt_prop and_then].
  destruct (lookup "user" sprops) as [su | ] eqn:Hu; [ | reflexivity ].
  cbn [and_then].
  destruct (truthy su && truthy user) eqn:Ht; [ | reflexivity ].
  apply andb_true_iff in Ht. destruct Ht as [Hsu Hus].
  rewrite !get_prop_truthy by exact Hus.
  destruct su as [ | | b | x | str | ms | uprops ]; try discriminate;
    try (eexists; reflexivity).
  - cbn [and_then set_prop]. now rewrite (assign_present _ _ Hu).
  - exists sprops. repeat split; auto.
Qed.

(** X4. The [session] callback throws exactly when the session is [null] or
    [undefined], or when there is a user and [session.user] is a truthy
    primitive (the assignment fails). When [session.user] or the user is
    falsy, it returns the session as it is. *)
Theorem session_throws_or_returns (s user : JsVal) :
  ((exists e, session s user = Throw e) <->
   s = JsNull \/ s = JsUndefined
   \/ (truthy (opt_prop s "user") && truthy user
       && is_primitive (opt_prop s "user") = true))
  /\ (s <> JsNull -> s <> JsUndefined ->
      truthy (opt_prop s "user") && truthy user = false ->
      session s user = Ok s).
Proof.
  pose proof (session_run s user) as Hrun.
  split.
  - split.
    + intros [e He].
      destruct s as [ | | b | x | str | ms | sprops ]; auto;
        try (cbn in He; discriminate).
      right. right.
      destruct (truthy (opt_prop (JsObject sprops) "user") && truthy user)
        eqn:Ht; [ | congruence ].
      destruct (opt_prop (JsObject sprops) "user")
        as [ | | b | x | str | ms | uprops ]; try reflexivity;
        try (cbn in Ht; discriminate); try congruence.
      destruct Hrun as (sp & _ & _ & Hok). congruence.
    + intros [-> | [-> | Hp]]; try exact Hrun.
      apply andb_true_iff in Hp. destruct Hp as [Ht Hp].
      destruct s as [ | | b | x | str | ms | sprops ]; try exact Hrun;
        try (cbn in Ht; discriminate).
      rewrite Ht in Hrun.
      destruct (opt_prop (JsObject sprops) "user"); try discriminate;
        exact Hrun.
  - intros Hn Hu Hf. rewrite Hf in Hrun.
    destruct s; try congruence; exact Hrun.
Qed.

(** X5. Running the [session] callback again on its own result, with the
    same user, returns that result: the callback is idempotent. It also
    keeps the answer of [isAuthenticated]. *)
Theorem session_idempotent (s user s' : JsVal)
    (Hrun : session s user = Ok s') :
  session s' user = Ok s'
  /\ isAuthenticated s' = isAuthenticated s.
Proof.
  pose proof (session_run s user) as H1.
  destruct s as [ | | b | x | str | ms | sprops ];
    try (destruct H1; congruence);
    try (cbn [opt_prop truthy andb] in H1; rewrite H1 in Hrun;
         injection Hrun as <-; split; [exact H1 | reflexivity]).
  destruct (truthy (opt_prop (JsObject sprops) "user") && truthy user) eqn:Ht.
  2: { rewrite H1 in Hrun. injection Hrun as <-. split; [exact H1 | reflexivity]. }
  destruct (opt_prop (JsObject sprops) "user")
    as [ | | b | x | str | ms | uprops ] eqn:Hu;
    try (destruct H1; congruence).
  - rewrite H1 in Hrun. injection Hrun as <-. split; [exact H1 | reflexivity].
  - destruct H1 as (sp & Es & Hl & Hok). injection Es as <-.
    rewrite Hok in Hrun. injection Hrun as <-.
    apply andb_true_iff in Ht. destruct Ht as [_ Hus].
    split.
    + rewrite (@session_assigns
                 (assign "user"
                    (JsObject (assign "role" (opt_prop user "role")
                                 (assign "id" (opt_prop user "id") uprops)))
                    sprops)
                 (assign "role" (opt_prop user "role")
                    (assign "id" (opt_prop user "id") uprops))
                 user (lookup_assign_same _ _ _) Hus).
      f_equal. f_equal.
      rewrite (@assign_present "id" (opt_prop user "id"))
        by (rewrite lookup_assign_other by discriminate;
            apply lookup_assign_same).
      rewrite (@assign_present "role" (opt_prop user "role"))
        by apply lookup_assign_same.
      apply assign_present. apply lookup_assign_same.
    + unfold isAuthenticated. cbn [not_null not_undefined get_prop].
      rewrite lookup_assign_same, Hl. reflexivity.
Qed.

(** X6. After the [session] callback with a user whose [role] is the string
    of a role, on a session object whose [user] is an object, the session is
    authenticated and [hasRole] on [session.user] holds for that role and no
    other. *)
Theorem session_then_guards
    (sprops uprops : list (string * JsVal)) (user : JsVal) (r : UserRole)
    (Huser : lookup "user" sprops = Some (JsObject uprops))
    (Hrole : opt_prop user "role" = JsString (role_string r)) :
  exists s',
    session (JsObject sprops) user = Ok s'
    /\ isAuthenticated s' = Ok true
    /\ (forall r', hasRole (opt_prop s' "user") r' = true <-> r' = r).
Proof.
  assert (Htruthy : truthy user = true).
  { destruct user; cbn in Hrole; try discriminate. reflexivity. }
  eexists. split; [apply (session_assigns _ _ Huser Htruthy) | ].
  split.
  - unfold isAuthenticated. cbn [not_null not_undefined get_prop].
    now rewrite lookup_assign_same.
  - intros r'. rewrite hasRole_true. cbn [opt_prop].
    rewrite lookup_assign_same. cbn [opt_prop].
    rewrite lookup_assign_same, Hrole. split.
    + intros E. injection E as E. symmetry. now apply role_string_injective.
    + intros ->. reflexivity.
Qed.

(** *** The jwt callback *)

Lemma jwt_assigns (tprops : list (string * JsVal)) (user : JsVal) :
  truthy user = true ->
  jwt (JsObject tprops) user =
    Ok (JsObject (assign "id" (opt_prop user "id")
                    (assign "role" (opt_prop user "role") tprops))).
Proof.
  intros Ht. unfold jwt. rewrite Ht.
  rewrite !get_prop_truthy by exact Ht. reflexivity.
Qed.

(** X7. Without a user the [jwt] callback returns the token as it is,
    whatever the token. With a user and a token object it returns the token
    with [role] and [id] taken from the user and every other claim as it
    was; with a user and a token that is [null], [undefined] or a primitive
    it throws. *)
Theorem jwt_copies_role_and_id (token user : JsVal) :
  (truthy user = false -> jwt token user = Ok token)
  /\ (truthy user = true ->
      forall tprops, token = JsObject tprops ->
      exists tprops',
        jwt token user = Ok (JsObject tprops')
        /\ lookup "role" tprops' = Some (opt_prop user "role")
        /\ lookup "id" tprops' = Some (opt_prop user "id")
        /\ (forall k, k <> "role" -> k <> "id" ->
                      lookup k tprops' = lookup k tprops))
  /\ (truthy user = true ->
      ((exists e, jwt token user = Throw e) <->
       token = JsNull \/ token = JsUndefined \/ is_primitive token = true)).
Proof.
  split; [ | split ].
  - intros Hf. unfold jwt. now rewrite Hf.
  - intros Ht tprops ->. eexists. split; [apply (@jwt_assigns tprops user Ht) | ].
    split; [ | split; [apply lookup_assign_same | ] ].
    + rewrite lookup_assign_other by discriminate. apply lookup_assign_same.
    + intros k Hr Hi. now rewrite !lookup_assign_other.
  - intros Ht. unfold jwt. rewrite Ht.
    rewrite !get_prop_truthy by exact Ht.
    destruct token as [ | | b | x | str | ms | tprops ]; cbn; split;
      try (intros _; eauto; fail);
      try (intros [e He]; discriminate);
      try (intros [E | [E | E]]; discriminate).
Qed.

(** X8. The [jwt] callback on a token object and the object that
    [authorize] returns for a row: the token gets the role and the id of the
    row, and nothing else of the row: every other claim of the token, a
    [password] claim included, is as it was. *)
Theorem jwt_of_authorized_user (tprops : list (string * JsVal)) (row : UserRow) :
  exists tprops',
    jwt (JsObject tprops) (returned_user row) = Ok (JsObject tprops')
    /\ lookup "role" tprops' = Some (JsString (role_string (role row)))
    /\ lookup "id" tprops' = Some (JsString (id row))
    /\ (forall k, k <> "role" -> k <> "id" ->
                  lookup k tprops' = lookup k tprops)
    /\ lookup "password" tprops' = lookup "password" tprops.
Proof.
  eexists. split; [apply jwt_assigns; reflexivity | ].
  split; [ | split; [apply lookup_assign_same | split ] ].
  - rewrite lookup_assign_other by discriminate. apply lookup_assign_same.
  - intros k Hr Hi. now rewrite !lookup_assign_other.
  - now rewrite !lookup_assign_other by discriminate.
Qed.

(** *** The signIn callback *)

Section WithCollaborators.
Context {W : Type} `{Collaborators W}.
Variable find_status : JsVal -> W -> Outcome (option StatusRow) * W.

(** Every run of the callback. *)
Lemma signIn_run (user account profile : JsVal) (w : W) :
  signIn find_status user account profile w =
    if strict_eq_string (opt_prop account "provider") (lit "credentials")
    then
      match get_prop user "email" with
      | Throw e =>
          (Ok false, console_error (LogCaught "Sign in callback error:" e) w)
      | Ok user_email =>
          match find_status user_email w with
          | (Ok _, w1) => (Ok true, w1)
          | (Throw e, w1) =>
              (Ok false,
               console_error (LogCaught "Sign in callback error:" e) w1)
          end
      end
    else (Ok true, w).
Proof.
  unfold signIn, lift. unfold try_catch, bind, ret, effect.
  destruct (strict_eq_string (opt_prop account "provider") (lit "credentials"));
    [ | reflexivity ].
  destruct (get_prop user "email") as [v | e]; [ | reflexivity ].
  destruct (find_status v w) as [[row | e] w1]; reflexivity.
Qed.

Lemma get_prop_defined (v : JsVal) (k : string) :
  v <> JsNull -> v <> JsUndefined -> get_prop v k = Ok (opt_prop v k).
Proof.
  destruct v; cbn; try congruence. intros _ _. destruct (lookup k props); auto.
Qed.

(** X9. The [signIn] callback never throws. For a provider other than
    [credentials] it allows the sign-in and does nothing. For [credentials]
    it refuses exactly when reading [user.email] throws (no user) or the
    lookup throws, and then logs the error; whatever row the lookup finds,
    none or one whose email is not verified, the sign-in is allowed. *)
Theorem signIn_allows_unless_lookup_throws
    (user account profile : JsVal) (w : W) :
  exists (b : bool) (w' : W),
    signIn find_status user account profile w = (Ok b, w')
    /\ (strict_eq_string (opt_prop account "provider") (lit "credentials")
        = false -> b = true /\ w' = w)
    /\ (strict_eq_string (opt_prop account "provider") (lit "credentials")
        = true ->
        (b = false <->
         user = JsNull \/ user = JsUndefined
         \/ exists e, fst (find_status (opt_prop user "email") w) = Throw e)
        /\ (forall row w1,
              user <> JsNull -> user <> JsUndefined ->
              find_status (opt_prop user "email") w = (Ok row, w1) ->
              b = true /\ w' = w1)
        /\ (b = false ->
            exists e w1, w' = console_error
                                (LogCaught "Sign in callback error:" e) w1)).
Proof.
  rewrite signIn_run.
  destruct (strict_eq_string (opt_prop account "provider") (lit "credentials")).
  2: { exists true, w. split; [reflexivity | ]. split; [auto | discriminate]. }
  assert (Hcases : user = JsNull \/ user = JsUndefined
                   \/ (user <> JsNull /\ user <> JsUndefined)).
  { destruct user; auto; right; right; split; discriminate. }
  destruct Hcases as [-> | [-> | [Hn Hu]]].
  - cbn [get_prop]. eexists. eexists. split; [reflexivity | ].
    split; [discriminate | ]. intros _.
    split; [ split; auto | split; [ congruence | eauto ] ].
  - cbn [get_prop]. eexists. eexists. split; [reflexivity | ].
    split; [discriminate | ]. intros _.
    split; [ split; auto | split; [ congruence | eauto ] ].
  - rewrite (get_prop_defined "email" Hn Hu).
    destruct (find_status (opt_prop user "email") w) as [[row | e] w1] eqn:Hf;
      cbn [fst].
    + exists true, w1. split; [reflexivity | ].
      split; [discriminate | ]. intros _. split; [ | split ].
      * split; [discriminate | ].
        intros [E | [E | [e E]]]; congruence.
      * intros row' w1' _ _ E. injection E as _ <-. auto.
      * discriminate.
    + eexists. eexists. split; [reflexivity | ].
      split; [discriminate | ]. intros _. split; [ | split ].
      * split; auto. intros _. right. right. eauto.
      * intros row' w1' _ _ E. discriminate.
      * eauto.
Qed.

End WithCollaborators.

End CallbacksFacts.

(* ================================================================== *)
(** ** More on the credential authenticator *)
(* ================================================================== *)

Module AuthMoreFacts.
Import Password Auth PasswordFacts AuthFacts.

Section WithCollaborators.
Context {W : Type} `{Collaborators W}.

(** The steps of a verified login up to the advisor, gathered for the
    rewriting below. *)
Lemma authorize_after_verification
    (credentials : JsVal) (w : W) (user : UserRow) (stored : jsstring) (w2 : W) :
  Verified credentials w user w2 ->
  password user = Some stored ->
  authorize credentials w =
    match shouldRehashPassword stored w2 with
    | (Ok true, w3) =>
        match rehash (opt_prop credentials "password") user
                (console_log (LogAbout "Rehashing password for user: "
                                       (opt_prop credentials "email")) w3) with
        | (Ok _, w4) => (Ok (returned_user user), w4)
        | (Throw e, w4) =>
            (Ok JsNull, console_error (LogCaught "Authentication error:" e) w4)
        end
    | (Ok false, w3) => (Ok (returned_user user), w3)
    | (Throw e, w3) =>
        (Ok JsNull, console_error (LogCaught "Authentication error:" e) w3)
    end.
Proof.
  intros (s & stored' & w1 & Es & Hem & Hpw & Hfind & _ & Hnp & Hver) Hstored.
  unfold authorize, attempt. cbv zeta. unfold_m.
  rewrite Hem, Hpw. cbn [negb orb].
  rewrite Es at 1. cbn [call_toLowerCase]. unfold ret.
  rewrite Hfind, Hnp, Hver. cbn [negb]. rewrite Hstored.
  destruct (shouldRehashPassword stored w2) as [[[ | ] | e] w3]; try reflexivity.
  destruct (rehash (opt_prop credentials "password") user _) as [[[] | e] w4];
    reflexivity.
Qed.

(** X10. When the login is verified and the advisor does not ask for a
    rehash, [authorize] returns the user in the world the advisor left: it
    does not hash, does not write to the storage and logs nothing. *)
Theorem authorize_without_rehash
    (credentials : JsVal) (w : W) (user : UserRow) (stored : jsstring)
    (w2 w3 : W)
    (Hverified : Verified credentials w user w2)
    (Hstored : password user = Some stored)
    (Hadvice : shouldRehashPassword stored w2 = (Ok false, w3)) :
  authorize credentials w = (Ok (returned_user user), w3).
Proof.
  rewrite (authorize_after_verification Hverified Hstored), Hadvice.
  reflexivity.
Qed.

(** X11. When the login is verified, the advisor asks for a rehash, hashing
    the submitted password gives a digest and the update succeeds, the update
    that [authorize] made is the one of that digest against the id of the
    row, and [authorize] returns the user in the world after it. *)
Theorem authorize_persists_rehash
    (credentials : JsVal) (w : W) (user : UserRow) (stored digest : jsstring)
    (w2 w3 w5 w6 : W)
    (Hverified : Verified credentials w user w2)
    (Hstored : password user = Some stored)
    (Hadvice : shouldRehashPassword stored w2 = (Ok true, w3))
    (Hhash : hashPassword (opt_prop credentials "password")
               (console_log (LogAbout "Rehashing password for user: "
                                      (opt_prop credentials "email")) w3)
             = (Ok digest, w5))
    (Hupdate : prisma_user_update (id user) digest w5 = (Ok tt, w6)) :
  authorize credentials w = (Ok (returned_user user), w6).
Proof.
  rewrite (authorize_after_verification Hverified Hstored), Hadvice.
  unfold rehash, rehash_attempt. unfold_m. rewrite Hhash, Hupdate.
  reflexivity.
Qed.

(** X12. A password that verifies against the stored digest but is not of 8
    to 72 code units is never rehashed: when the advisor asks for a rehash,
    [hashPassword] refuses the plaintext, nothing is written, the validation
    error goes to the console and the login succeeds all the same. *)
Theorem authorize_cannot_rehash_out_of_range_password
    (credentials : JsVal) (w : W) (user : UserRow) (stored : jsstring)
    (w2 w3 : W)
    (Hverified : Verified credentials w user w2)
    (Hstored : password user = Some stored)
    (Hadvice : shouldRehashPassword stored w2 = (Ok true, w3))
    (Hrange : plaintext_ok (opt_prop credentials "password") = false) :
  authorize credentials w =
    (Ok (returned_user user),
     console_error
       (LogCaught "Failed to rehash password during login:"
                  (ValidationError (opt_prop credentials "password")))
       (console_log (LogAbout "Rehashing password for user: "
                              (opt_prop credentials "email")) w3)).
Proof.
  rewrite (authorize_after_verification Hverified Hstored), Hadvice.
  unfold rehash, rehash_attempt. unfold_m.
  rewrite (hashPassword_refuses _ _ Hrange). reflexivity.
Qed.

(** *** What a failed login touches *)

(** The worlds a login can reach by reading only: the world it started in,
    the world after the lookup, the world after the lookup and the
    comparison. *)
Inductive ReadOnly (w : W) : W -> Prop :=
| ro_start : ReadOnly w w
| ro_lookup (s : jsstring) :
    ReadOnly w (snd (prisma_user_findUnique s w))
| ro_compare (s p h : jsstring) :
    ReadOnly w (snd (bcrypt_compare p h (snd (prisma_user_findUnique s w)))).

(** [verifyPassword] leaves the world alone or calls [bcrypt.compare]
    once. *)
Lemma verifyPassword_world (password hashedPassword : JsVal) (w : W)
    (o : Outcome bool) (w' : W) :
  verifyPassword password hashedPassword w = (o, w') ->
  w' = w \/ exists p h, w' = snd (bcrypt_compare p h w).
Proof.
  unfold verifyPassword. unfold_m.
  destruct (negb (truthy password) || negb (typeof_string password));
    [intros E; injection E as _ <-; auto | ].
  destruct (negb (truthy hashedPassword) || negb (typeof_string hashedPassword));
    [intros E; injection E as _ <-; auto | ].
  destruct password as [ | | | | p | | ];
    try (intros E; injection E as _ <-; auto; fail).
  destruct hashedPassword as [ | | | | h | | ];
    try (intros E; injection E as _ <-; auto; fail).
  destruct (bcrypt_compare p h w) as [[b | e] w1] eqn:Hc;
    intros E; injection E as _ <-; right; exists p, h; now rewrite Hc.
Qed.

(** Every run of the attempt that does not return the user. *)
Lemma attempt_trace (credentials : JsVal) (w : W) (o : Outcome JsVal) (w' : W) :
  attempt credentials w = (o, w') ->
  (exists user, o = Ok (returned_user user))
  \/ (o = Ok JsNull
      /\ exists w0 line, ReadOnly w w0 /\ w' = console_log line w0)
  \/ ((exists e, o = Throw e) /\ ReadOnly w w').
Proof.
  intros Hrun. unfold attempt in Hrun. cbv zeta in Hrun.
  set (em := opt_prop credentials "email") in *.
  set (pw := opt_prop credentials "password") in *.
  unfold_m.
  destruct (negb (truthy em) || negb (truthy pw)).
  { injection Hrun as <- <-. right. left. split; auto.
    eexists. eexists. split; [apply ro_start | reflexivity]. }
  destruct (call_toLowerCase_run em w) as [(s & Es & Hlow) | (_ & e & Hlow)];
    rewrite Hlow in Hrun.
  2: { injection Hrun as <- <-. right. right. split; [eauto | apply ro_start]. }
  pose proof (ro_lookup w (toLowerCase s)) as Hro.
  destruct (prisma_user_findUnique (toLowerCase s) w)
    as [[[user | ] | e] w1] eqn:Hfind; cbn [snd] in Hro.
  3: { injection Hrun as <- <-. right. right. split; eauto. }
  2: { injection Hrun as <- <-. right. left. split; auto.
       eexists. eexists. split; [exact Hro | reflexivity]. }
  destruct (no_password (password user)).
  { injection Hrun as <- <-. right. left. split; auto.
    eexists. eexists. split; [exact Hro | reflexivity]. }
  assert (Hro2 : forall o2 w2,
             verifyPassword pw (nullable JsString (password user)) w1 = (o2, w2) ->
             ReadOnly w w2).
  { intros o2 w2 Hv. destruct (verifyPassword_world _ _ _ Hv) as [-> | (p & h & ->)].
    - exact Hro.
    - pose proof (ro_compare w (toLowerCase s) p h) as Hc.
      now rewrite Hfind in Hc. }
  destruct (verifyPassword pw (nullable JsString (password user)) w1)
    as [[[ | ] | e] w2] eqn:Hver; cbn [negb] in Hrun.
  3: { injection Hrun as <- <-. right. right. split; eauto. }
  2: { injection Hrun as <- <-. right. left. split; auto.
       eexists. eexists. split; [exact (Hro2 _ _ eq_refl) | reflexivity]. }
  left. exists user.
  destruct (match password user with
            | Some stored => shouldRehashPassword stored
            | None => fun w0 => (Ok false, w0)
            end w2) as [[b | e] w3] eqn:Hsr.
  2: { exfalso. destruct (password user) as [stored | ]; [ | discriminate ].
       destruct (shouldRehashPassword_returns stored w2) as (b & w3' & Hb).
       congruence. }
  destruct b.
  - destruct (rehash_returns pw user
                (console_log (LogAbout "Rehashing password for user: " em) w3))
      as [w4 Hre].
    rewrite Hre in Hrun. now injection Hrun as <- <-.
  - now injection Hrun as <- <-.
Qed.

(** X13. Whenever [authorize] returns [null], all it did was read: at most
    one lookup and at most one [bcrypt.compare], then one line on the
    console. It did not hash and did not write to the storage. *)
Theorem failed_login_reads_and_logs_only
    (credentials : JsVal) (w w' : W)
    (Hnull : authorize credentials w = (Ok JsNull, w')) :
  exists w0 line,
    ReadOnly w w0
    /\ (w' = console_log line w0 \/ w' = console_error line w0).
Proof.
  pose proof (authorize_run credentials w) as Hauth.
  destruct (attempt credentials w) as [[v | e] w1] eqn:Hrun.
  - rewrite Hauth in Hnull. injection Hnull as -> ->.
    destruct (attempt_trace credentials w Hrun)
      as [[user Hu] | [[_ (w0 & line & Hro & ->)] | [[e He] _]]].
    + discriminate.
    + eauto.
    + discriminate.
  - rewrite Hauth in Hnull. injection Hnull as <-.
    destruct (attempt_trace credentials w Hrun)
      as [[user Hu] | [[Hn _] | [_ Hro]]]; try discriminate.
    eauto.
Qed.

(** *** The email is looked up in lower case *)

(** What [authorize] returns, as a function of the lower-cased email and
    the password. *)
Lemma authorize_value (credentials : JsVal) (s : jsstring) (w : W) :
  opt_prop credentials "email" = JsString s ->
  s <> [] ->
  fst (authorize credentials w) =
    if truthy (opt_prop credentials "password")
    then
      match prisma_user_findUnique (toLowerCase s) w with
      | (Ok (Some user), w1) =>
          if no_password (password user) then Ok JsNull
          else
            match verifyPassword (opt_prop credentials "password")
                    (nullable JsString (password user)) w1 with
            | (Ok true, _) => Ok (returned_user user)
            | _ => Ok JsNull
            end
      | _ => Ok JsNull
      end
    else Ok JsNull.
Proof.
  intros Es Hne.
  assert (Hem : truthy (opt_prop credentials "email") = true).
  { rewrite Es. destruct s; [congruence | reflexivity]. }
  unfold authorize, attempt. cbv zeta. unfold_m. rewrite Hem. cbn [negb orb].
  destruct (truthy (opt_prop credentials "password")); [ | reflexivity ].
  cbn [negb]. rewrite Es at 1. cbn [call_toLowerCase]. unfold ret.
  destruct (prisma_user_findUnique (toLowerCase s) w)
    as [[[user | ] | e] w1]; try reflexivity.
  destruct (no_password (password user)) eqn:Hnp; [reflexivity | ].
  destruct (verifyPassword (opt_prop credentials "password")
              (nullable JsString (password user)) w1)
    as [[[ | ] | e] w2]; try reflexivity.
  cbn [negb].
  destruct (password user) as [stored | ]; [ | discriminate Hnp ].
  destruct (shouldRehashPassword_returns stored w2) as (b & w3 & Hsr).
  rewrite Hsr. destruct b; [ | reflexivity ].
  match goal with
  | |- context [rehash ?p ?u ?w0] =>
      destruct (rehash_returns p u w0) as [w4 Hre]; rewrite Hre
  end.
  reflexivity.
Qed.

(** X14. The lookup is by the lower-cased email: two credentials with the
    same password whose emails lower-case to the same string get the same
    answer from [authorize] in the same world. *)
Theorem authorize_ignores_email_case
    (c1 c2 : JsVal) (s1 s2 : jsstring) (w : W)
    (Hemail1 : opt_prop c1 "email" = JsString s1)
    (Hemail2 : opt_prop c2 "email" = JsString s2)
    (Hne1 : s1 <> []) (Hne2 : s2 <> [])
    (Hpassword : opt_prop c1 "password" = opt_prop c2 "password")
    (Hlower : toLowerCase s1 = toLowerCase s2) :
  fst (authorize c1 w) = fst (authorize c2 w).
Proof.
  rewrite (authorize_value c1 w Hemail1 Hne1), (authorize_value c2 w Hemail2 Hne2).
  now rewrite Hpassword, Hlower.
Qed.

End WithCollaborators.

End AuthMoreFacts.

(* ================================================================== *)
(** ** More on the hasher, the validator and the generator *)
(* ================================================================== *)

Module PasswordMoreFacts.
Import Password PasswordFacts ValidatorFacts.

(** *** The validator alone *)

Lemma in_report (m msg : jsstring) (b : bool) :
  In m (report b msg) <-> b = true /\ m = msg.
Proof.
  unfold report. destruct b; cbn; intuition congruence.
Qed.

(** The checks that failed, read back from the errors. *)
Lemma errors_inv (p m : jsstring) :
  In m (errors (validatePasswordStrength p)) <->
  ((List.length p <? 8)%nat = true /\ m = msg_too_short)
  \/ ((72 <? List.length p)%nat = true /\ m = msg_too_long)
  \/ (regex_test is_upper p = false /\ m = msg_need_upper)
  \/ (regex_test is_lower p = false /\ m = msg_need_lower)
  \/ (regex_test is_digit p = false /\ m = msg_need_digit)
  \/ (regex_test is_special p = false /\ m = msg_need_special).
Proof.
  rewrite errors_unrolled, !in_app_iff, !in_report, !negb_true_iff. tauto.
Qed.

Lemma regex_test_app (class : N -> bool) (p q : jsstring) :
  regex_test class (p ++ q) = regex_test class p || regex_test class q.
Proof. apply existsb_app. Qed.

(** X15. Adding characters to a plaintext never brings a new error other
    than the one for being too long: every other error of the longer
    plaintext is an error of the shorter one. *)
Theorem validatePasswordStrength_append (p q m : jsstring)
    (Herror : In m (errors (validatePasswordStrength (p ++ q)))) :
  m = msg_too_long \/ In m (errors (validatePasswordStrength p)).
Proof.
  apply errors_inv in Herror. rewrite errors_inv.
  rewrite !regex_test_app, length_app in Herror.
  destruct Herror as [[Hl ->] | [[Hl ->] | [[Hc ->] | [[Hc ->] | [[Hc ->] | [Hc ->]]]]]];
    auto; right.
  - left. split; auto. apply Nat.ltb_lt in Hl. apply Nat.ltb_lt. lia.
  - right. right. left. apply orb_false_iff in Hc. tauto.
  - right. right. right. left. apply orb_false_iff in Hc. tauto.
  - right. right. right. right. left. apply orb_false_iff in Hc. tauto.
  - right. right. right. right. right. apply orb_false_iff in Hc. tauto.
Qed.

(** X16. A plaintext is never reported both too short and too long, so
    there are at most five errors; a plaintext of 8 to 72 code units has at
    most four, one for each character class it lacks. *)
Theorem validatePasswordStrength_error_count (p : jsstring) :
  ~ (In msg_too_short (errors (validatePasswordStrength p))
     /\ In msg_too_long (errors (validatePasswordStrength p)))
  /\ List.length (errors (validatePasswordStrength p)) <= 5
  /\ (8 <= List.length p <= 72 ->
      List.length (errors (validatePasswordStrength p)) <= 4
      /\ forall m, In m (errors (validatePasswordStrength p)) ->
                   In m [ msg_need_upper; msg_need_lower;
                          msg_need_digit; msg_need_special ]).
Proof.
  split; [ | split ].
  - rewrite !errors_inv. intros [H1 H2].
    destruct H1 as [[Hs _] | [[_ E] | [[_ E] | [[_ E] | [[_ E] | [_ E]]]]]];
      try discriminate.
    destruct H2 as [[_ E] | [[Hl _] | [[_ E] | [[_ E] | [[_ E] | [_ E]]]]]];
      try discriminate.
    apply Nat.ltb_lt in Hs, Hl. lia.
  - rewrite errors_unrolled, !length_app. unfold report.
    destruct (List.length p <? 8)%nat eqn:Hs, (72 <? List.length p)%nat eqn:Hl,
      (negb (regex_test is_upper p)), (negb (regex_test is_lower p)),
      (negb (regex_test is_digit p)), (negb (regex_test is_special p));
      cbn [List.length]; try lia;
      apply Nat.ltb_lt in Hs, Hl; lia.
  - intros [Hlo Hhi].
    assert (Hs : (List.length p <? 8)%nat = false) by (apply Nat.ltb_ge; lia).
    assert (Hl : (72 <? List.length p)%nat = false) by (apply Nat.ltb_ge; lia).
    split.
    + rewrite errors_unrolled, Hs, Hl, !length_app. unfold report.
      destruct (negb (regex_test is_upper p)), (negb (regex_test is_lower p)),
        (negb (regex_test is_digit p)), (negb (regex_test is_special p));
        cbn [List.length]; lia.
    + intros m Hm. apply errors_inv in Hm. cbn [In].
      destruct Hm as [[E _] | [[E _] | [[_ ->] | [[_ ->] | [[_ ->] | [_ ->]]]]]];
        try congruence; auto.
Qed.

Section WithCollaborators.
Context {W : Type} `{Collaborators W}.

(** *** The validator and the hasher *)

(** X17. A plaintext that passes [validatePasswordStrength] is never refused
    by the checks of [hashPassword]: the result of [hashPassword] is the
    digest of [bcrypt.hash] with 12 rounds, or the error of [bcrypt.hash]
    with its message behind the prefix. *)
Theorem valid_password_is_hashed (p : jsstring) (w : W)
    (Hvalid : isValid (validatePasswordStrength p) = true) :
  8 <= List.length p <= 72
  /\ hashPassword (JsString p) w =
       match bcrypt_hash p 12%float w with
       | (Ok digest, w') => (Ok digest, w')
       | (Throw e, w') =>
           (Throw (JsError (lit "Password hashing failed: " ++ message_of e)), w')
       end.
Proof.
  assert (Hnone : errors (validatePasswordStrength p) = []).
  { unfold validatePasswordStrength in *. cbn [isValid errors] in *.
    apply Nat.eqb_eq in Hvalid. now apply length_zero_iff_nil. }
  assert (Hs : (List.length p <? 8)%nat = false).
  { destruct (List.length p <? 8)%nat eqn:E; [ | reflexivity ].
    assert (Hin : In msg_too_short (errors (validatePasswordStrength p)))
      by (apply errors_inv; auto).
    rewrite Hnone in Hin. destruct Hin. }
  assert (Hl : (72 <? List.length p)%nat = false).
  { destruct (72 <? List.length p)%nat eqn:E; [ | reflexivity ].
    assert (Hin : In msg_too_long (errors (validatePasswordStrength p)))
      by (apply errors_inv; auto).
    rewrite Hnone in Hin. destruct Hin. }
  apply Nat.ltb_ge in Hs, Hl.
  split; [lia | ].
  apply hashPassword_accepts. unfold plaintext_ok.
  apply andb_true_iff. split; apply Nat.leb_le; lia.
Qed.

(** *** The errors of the hasher *)

(** X18. Every error that [hashPassword] throws is an [Error] whose message
    starts with [Password hashing failed: ]. For a refused plaintext the
    rest is the validation message and the world is untouched; for an
    accepted one the rest is the message of the error that [bcrypt.hash]
    threw, or [Unknown error] when what it threw is not an [Error]. *)
Theorem hashPassword_error_message (v : JsVal) (w : W) (e : Exn) (w' : W)
    (Hthrow : hashPassword v w = (Throw e, w')) :
  exists cause,
    e = JsError (lit "Password hashing failed: " ++ cause)
    /\ (plaintext_ok v = false -> cause = validation_message v /\ w' = w)
    /\ (plaintext_ok v = true ->
        exists s inner,
          v = JsString s
          /\ bcrypt_hash s SALT_ROUNDS w = (Throw inner, w')
          /\ cause = match inner with
                     | JsError message => message
                     | JsThrown _ => lit "Unknown error"
                     end).
Proof.
  destruct (plaintext_ok v) eqn:Hok.
  - destruct v as [ | | | | s | | ]; try discriminate.
    rewrite (hashPassword_accepts s w Hok) in Hthrow.
    destruct (bcrypt_hash s SALT_ROUNDS w) as [[digest | inner] w1] eqn:Hh;
      [discriminate | ].
    injection Hthrow as <- <-. exists (message_of inner).
    split; [reflexivity | split; [discriminate | ] ].
    intros _. exists s, inner.
    split; [reflexivity | split; [exact Hh | destruct inner; reflexivity] ].
  - rewrite (hashPassword_refuses v w Hok) in Hthrow.
    injection Hthrow as <- <-. exists (validation_message v).
    split; [reflexivity | split; [auto | discriminate] ].
Qed.

(** *** The hasher and the advisor *)

(** The contract of bcryptjs on the cost: a digest made with [rounds]
    rounds reports [rounds]. *)
Definition bcrypt_embeds_rounds (rounds : float) : Prop :=
  forall (p : jsstring) (w w1 : W) (digest : jsstring),
    bcrypt_hash p rounds w = (Ok digest, w1) ->
    forall w2, exists w3, bcrypt_getRounds digest w2 = (Ok rounds, w3).

(** X19. When bcryptjs reports for a digest the rounds it was made with,
    a digest that [hashPassword] returns is never one that
    [shouldRehashPassword] wants hashed again: the hasher and the advisor
    use the same work factor. *)
Theorem fresh_digest_needs_no_rehash
    (Hcontract : bcrypt_embeds_rounds 12%float)
    (v : JsVal) (w w1 : W) (digest : jsstring)
    (Hhash : hashPassword v w = (Ok digest, w1)) :
  forall w2, exists w3, shouldRehashPassword digest w2 = (Ok false, w3).
Proof.
  assert (Hb : exists s, bcrypt_hash s 12%float w = (Ok digest, w1)).
  { destruct (plaintext_ok v) eqn:Hok.
    - destruct v as [ | | | | s | | ]; try discriminate.
      rewrite (hashPassword_accepts s w Hok) in Hhash. exists s.
      change 12%float with SALT_ROUNDS.
      destruct (bcrypt_hash s SALT_ROUNDS w) as [[d | e] w0];
        [ | discriminate ].
      now injection Hhash as <- <-.
    - rewrite (hashPassword_refuses v w Hok) in Hhash. discriminate. }
  destruct Hb as [s Hb]. intros w2.
  destruct (Hcontract _ _ _ _ Hb w2) as [w3 Hg]. exists w3.
  unfold shouldRehashPassword. unfold_m. rewrite Hg. reflexivity.
Qed.

End WithCollaborators.

End PasswordMoreFacts.

(* ================================================================== *)
(** ** More on the generator *)
(* ================================================================== *)

Module GeneratorFacts.
Import Password PasswordFacts ValidatorFacts.

Section WithCollaborators.
Context {W : Type} `{Collaborators W}.

(** The loop always returns. *)
Lemma generate_loop_returns (remaining : nat) :
  forall (password : jsstring) (w : W),
    exists s w', generate_loop remaining password w = (Ok s, w').
Proof.
  induction remaining as [ | remaining IH ]; intros password w; cbn.
  - unfold ret. eauto.
  - destruct (Math_random w) as [x w1]. apply IH.
Qed.

(** What the loop appends does not depend on what is there already. *)
Lemma generate_loop_prefix (remaining : nat) :
  forall (password : jsstring) (w : W) (s : jsstring) (w' : W),
    generate_loop remaining [] w = (Ok s, w') ->
    generate_loop remaining password w = (Ok (password ++ s), w').
Proof.
  induction remaining as [ | remaining IH ]; intros password w s w';
    cbn [generate_loop].
  - unfold ret. intros E. injection E as <- <-. now rewrite app_nil_r.
  - destruct (Math_random w) as [x w1].
    set (c := char_at charset (randomIndex_of x)).
    intros Hrun.
    destruct (generate_loop_returns remaining [] w1) as (t & w2 & Ht).
    rewrite (IH (append_char [] c) w1 t w2 Ht) in Hrun.
    injection Hrun as <- <-.
    rewrite (IH (append_char password c) w1 t w2 Ht).
    f_equal. f_equal. destruct c; cbn; now rewrite <- app_assoc.
Qed.

Lemma generate_loop_add (n m : nat) :
  forall (password : jsstring) (w : W),
    generate_loop (n + m) password w =
      match generate_loop n password w with
      | (Ok s, w1) => generate_loop m s w1
      | (Throw e, w1) => (Throw e, w1)
      end.
Proof.
  induction n as [ | n IH ]; intros password w; cbn.
  - reflexivity.
  - destruct (Math_random w) as [x w1]. apply IH.
Qed.

(** X20. Generating [n + m] characters is generating [n] and then [m] more:
    the string is the two strings one after the other, and the world is the
    one after both. No draw is made for a length of zero or below, which
    gives the empty string. *)
Theorem generateSecurePassword_additive (n m : nat) (w : W) :
  (exists s1 w1 s2 w2,
      generateSecurePassword (Some (Z.of_nat n)) w = (Ok s1, w1)
      /\ generateSecurePassword (Some (Z.of_nat m)) w1 = (Ok s2, w2)
      /\ generateSecurePassword (Some (Z.of_nat (n + m))) w
         = (Ok (s1 ++ s2), w2))
  /\ (forall z, (z <= 0)%Z -> generateSecurePassword (Some z) w = (Ok [], w)).
Proof.
  split.
  - unfold generateSecurePassword. rewrite !Nat2Z.id.
    destruct (generate_loop_returns n [] w) as (s1 & w1 & H1).
    destruct (generate_loop_returns m [] w1) as (s2 & w2 & H2).
    exists s1, w1, s2, w2. split; [exact H1 | split; [exact H2 | ] ].
    rewrite generate_loop_add, H1. now apply generate_loop_prefix.
  - intros z Hz. unfold generateSecurePassword.
    replace (Z.to_nat z) with 0 by lia. reflexivity.
Qed.


End WithCollaborators.

End GeneratorFacts.

(* ================================================================== *)
(** ** These properties at work on the test doubles *)
(* ================================================================== *)

Module MoreInstances.
Import Types Roles Callbacks Password Auth.
Import PasswordFacts AuthFacts CallbacksFacts AuthMoreFacts.
Import PasswordMoreFacts GeneratorFacts Doubles.

#[local] Existing Instance doubles.

(** A tenant whose stored password, [short], is older than the length rule;
    a landlord whose digest is at the current cost. *)
Definition carol : UserRow :=
  {| id := lit "u3";
     email := lit "carol@example.com";
     name := Some (lit "Carol");
     password := Some (10%N :: 0%N :: lit "short");
     role := TENANT;
     emailVerified := None;
     image := None |}.

Definition dave : UserRow :=
  {| id := lit "u4";
     email := lit "dave@example.com";
     name := Some (lit "Dave");
     password := Some (12%N :: 0%N :: lit "Secret123!");
     role := LANDLORD;
     emailVerified := Some 1700000000000%Z;
     image := None |}.

Definition world1 : World :=
  {| users := [alice; bob; carol; dave]; salts := 1; console := []; seed := 0;
     storage_down := false; storage_read_only := false |}.

(** *** Callbacks *)

Definition fresh_session : list (string * JsVal) :=
  [ ("user", JsObject [ ("name", JsString (lit "Dave"));
                        ("email", JsString (lit "dave@example.com")) ]);
    ("expires", JsString (lit "2026-01-01T00:00:00.000Z")) ].

(** The user as the adapter hands it to the callback: the whole row, the
    digest included. *)
Definition dave_record : JsVal :=
  JsObject [ ("id", JsString (lit "u4"));
             ("email", JsString (lit "dave@example.com"));
             ("password", JsString (12%N :: 0%N :: lit "Secret123!"));
             ("role", JsString (lit "LANDLORD")) ].

Definition dave_session : JsVal :=
  JsObject
    [ ("user", JsObject [ ("name", JsString (lit "Dave"));
                          ("email", JsString (lit "dave@example.com"));
                          ("id", JsString (lit "u4"));
                          ("role", JsString (lit "LANDLORD")) ]);
      ("expires", JsString (lit "2026-01-01T00:00:00.000Z")) ].

Lemma session_for_dave :
  truthy dave_record = true
  /\ exists sprops' uprops',
       session (JsObject fresh_session) dave_record = Ok (JsObject sprops')
       /\ lookup "user" sprops' = Some (JsObject uprops')
       /\ lookup "id" uprops' = Some (opt_prop dave_record "id")
       /\ lookup "role" uprops' = Some (opt_prop dave_record "role")
       /\ (forall k, k <> "id" -> k <> "role" ->
                     lookup k uprops' =
                       lookup k [ ("name", JsString (lit "Dave"));
                                  ("email", JsString (lit "dave@example.com")) ])
       /\ (forall k, k <> "user" -> lookup k sprops' = lookup k fresh_session).
Proof.
  split; [reflexivity | ].
  exact (@session_copies_id_and_role fresh_session _ dave_record
           eq_refl eq_refl).
Defined.

Example session_for_dave_value :
  session (JsObject fresh_session) dave_record = Ok dave_session.
Proof. reflexivity. Qed.

Lemma session_for_dave_again :
  session (JsObject fresh_session) dave_record = Ok dave_session
  /\ session dave_session dave_record = Ok dave_session
  /\ isAuthenticated dave_session = isAuthenticated (JsObject fresh_session).
Proof.
  assert (Hrun : session (JsObject fresh_session) dave_record = Ok dave_session)
    by reflexivity.
  split; [exact Hrun | ].
  exact (@session_idempotent (JsObject fresh_session) dave_record dave_session
           Hrun).
Defined.

Lemma session_for_dave_guards :
  opt_prop dave_record "role" = JsString (role_string LANDLORD)
  /\ exists s',
       session (JsObject fresh_session) dave_record = Ok s'
       /\ isAuthenticated s' = Ok true
       /\ (forall r', hasRole (opt_prop s' "user") r' = true <-> r' = LANDLORD).
Proof.
  split; [reflexivity | ].
  exact (@session_then_guards fresh_session _ dave_record LANDLORD
           eq_refl eq_refl).
Defined.

(** *** Logins *)

Definition dave_login : JsVal := login "dave@example.com" "Secret123!".
Definition carol_login : JsVal := login "carol@example.com" "short".

Definition dave_verified : Verified dave_login world1 dave world1.
Proof.
  exists (lit "dave@example.com"), (12%N :: 0%N :: lit "Secret123!"), world1.
  repeat split; vm_compute; reflexivity.
Defined.

Lemma authorize_dave :
  Verified dave_login world1 dave world1
  /\ authorize dave_login world1 = (Ok (returned_user dave), world1).
Proof.
  split; [exact dave_verified | ].
  exact (@authorize_without_rehash World doubles dave_login world1 dave
           (12%N :: 0%N :: lit "Secret123!") world1 world1
           dave_verified eq_refl eq_refl).
Defined.

Definition alice_verified0 : Verified Instances.alice_login world0 alice world0.
Proof.
  exists (lit "Alice@Example.com"), (10%N :: 0%N :: lit "Secret123!"), world0.
  repeat split; vm_compute; reflexivity.
Defined.

(** The world after Alice's rehash: the announcement, one more salt, the
    new digest in her row. *)
Definition world0_rehashed : World :=
  {| users := [ set_password (lit "u1") (12%N :: 1%N :: lit "Secret123!") alice;
                bob ];
     salts := 2;
     console := [ LogAbout "Rehashing password for user: "
                           (JsString (lit "Alice@Example.com")) ];
     seed := 0; storage_down := false; storage_read_only := false |}.

Lemma authorize_alice_persists :
  Verified Instances.alice_login world0 alice world0
  /\ authorize Instances.alice_login world0 = (Ok (returned_user alice), world0_rehashed).
Proof.
  split; [exact alice_verified0 | ].
  refine (@authorize_persists_rehash World doubles Instances.alice_login world0 alice
            (10%N :: 0%N :: lit "Secret123!") (12%N :: 1%N :: lit "Secret123!")
            world0 world0 _ world0_rehashed
            alice_verified0 eq_refl eq_refl _ _);
    vm_compute; reflexivity.
Defined.

Definition carol_verified : Verified carol_login world1 carol world1.
Proof.
  exists (lit "carol@example.com"), (10%N :: 0%N :: lit "short"), world1.
  repeat split; vm_compute; reflexivity.
Defined.

Lemma authorize_carol_keeps_old_digest :
  plaintext_ok (opt_prop carol_login "password") = false
  /\ authorize carol_login world1 =
       (Ok (returned_user carol),
        console_error
          (LogCaught "Failed to rehash password during login:"
             (ValidationError (opt_prop carol_login "password")))
          (console_log (LogAbout "Rehashing password for user: "
                                 (opt_prop carol_login "email")) world1)).
Proof.
  split; [reflexivity | ].
  exact (@authorize_cannot_rehash_out_of_range_password World doubles
           carol_login world1 carol (10%N :: 0%N :: lit "short") world1 world1
           carol_verified eq_refl eq_refl eq_refl).
Defined.

Example authorize_carol_storage_untouched :
  users (snd (authorize carol_login world1)) = users world1.
Proof. vm_compute. reflexivity. Qed.

Lemma failed_login_on_doubles :
  authorize (login "alice@example.com" "WrongPass1!") world0
    = (Ok JsNull, snd (authorize (login "alice@example.com" "WrongPass1!") world0))
  /\ exists w0 line,
       ReadOnly world0 w0
       /\ (snd (authorize (login "alice@example.com" "WrongPass1!") world0)
           = console_log line w0
           \/ snd (authorize (login "alice@example.com" "WrongPass1!") world0)
              = console_error line w0).
Proof.
  assert (Hnull : authorize (login "alice@example.com" "WrongPass1!") world0
                  = (Ok JsNull,
                     snd (authorize (login "alice@example.com" "WrongPass1!")
                            world0)))
    by (vm_compute; reflexivity).
  split; [exact Hnull | ].
  exact (@failed_login_reads_and_logs_only World doubles _ _ _ Hnull).
Defined.

Lemma authorize_two_spellings :
  toLowerCase (lit "Alice@Example.com") = toLowerCase (lit "ALICE@example.COM")
  /\ fst (authorize (login "Alice@Example.com" "Secret123!") world0)
     = fst (authorize (login "ALICE@example.COM" "Secret123!") world0).
Proof.
  split; [reflexivity | ].
  apply (@authorize_ignores_email_case World doubles
           (login "Alice@Example.com" "Secret123!")
           (login "ALICE@example.COM" "Secret123!")
           (lit "Alice@Example.com") (lit "ALICE@example.COM") world0);
    try reflexivity; discriminate.
Defined.

(** *** Validator, hasher, advisor, generator *)

Lemma append_keeps_errors :
  In msg_need_digit (errors (validatePasswordStrength (lit "Pass" ++ lit "word!")))
  /\ (msg_need_digit = msg_too_long
      \/ In msg_need_digit (errors (validatePasswordStrength (lit "Pass")))).
Proof.
  assert (Hin : In msg_need_digit
                  (errors (validatePasswordStrength (lit "Pass" ++ lit "word!"))))
    by (cbn; auto).
  split; [exact Hin | ].
  exact (@validatePasswordStrength_append (lit "Pass") (lit "word!")
           msg_need_digit Hin).
Defined.

Lemma strong_password_is_hashed :
  isValid (validatePasswordStrength (lit "StrongP@ssw0rd123!")) = true
  /\ 8 <= List.length (lit "StrongP@ssw0rd123!") <= 72
  /\ hashPassword (JsString (lit "StrongP@ssw0rd123!")) world0 =
       match bcrypt_hash (lit "StrongP@ssw0rd123!") 12%float world0 with
       | (Ok digest, w') => (Ok digest, w')
       | (Throw e, w') =>
           (Throw (JsError (lit "Password hashing failed: " ++ message_of e)), w')
       end.
Proof.
  split; [reflexivity | ].
  exact (@valid_password_is_hashed World doubles (lit "StrongP@ssw0rd123!")
           world0 eq_refl).
Defined.

Lemma short_password_error_message :
  hashPassword (JsString (lit "short")) world0
    = (Throw (ValidationError (JsString (lit "short"))), world0)
  /\ exists cause,
       ValidationError (JsString (lit "short"))
         = JsError (lit "Password hashing failed: " ++ cause)
       /\ (plaintext_ok (JsString (lit "short")) = false ->
           cause = validation_message (JsString (lit "short"))
           /\ world0 = world0)
       /\ (plaintext_ok (JsString (lit "short")) = true ->
           exists s inner,
             JsString (lit "short") = JsString s
             /\ bcrypt_hash s SALT_ROUNDS world0 = (Throw inner, world0)
             /\ cause = match inner with
                        | JsError message => message
                        | JsThrown _ => lit "Unknown error"
                        end).
Proof.
  assert (Hthrow : hashPassword (JsString (lit "short")) world0
                   = (Throw (ValidationError (JsString (lit "short"))), world0))
    by (vm_compute; reflexivity).
  split; [exact Hthrow | ].
  exact (@hashPassword_error_message World doubles _ _ _ _ Hthrow).
Defined.

Lemma doubles_embed_rounds : @bcrypt_embeds_rounds World doubles 12%float.
Proof.
  intros p w w1 digest Hh. cbn in Hh. unfold double_hash in Hh.
  injection Hh as <- <-. intros w2. exists w2. reflexivity.
Qed.

Lemma fresh_digest_on_doubles :
  hashPassword (JsString (lit "Secret123!")) world0
    = (Ok (12%N :: 1%N :: lit "Secret123!"),
       snd (hashPassword (JsString (lit "Secret123!")) world0))
  /\ forall w2, exists w3,
       shouldRehashPassword (12%N :: 1%N :: lit "Secret123!") w2 = (Ok false, w3).
Proof.
  assert (Hh : hashPassword (JsString (lit "Secret123!")) world0
               = (Ok (12%N :: 1%N :: lit "Secret123!"),
                  snd (hashPassword (JsString (lit "Secret123!")) world0)))
    by (vm_compute; reflexivity).
  split; [exact Hh | ].
  exact (@fresh_digest_needs_no_rehash World doubles doubles_embed_rounds
           _ _ _ _ Hh).
Defined.


Example generate_three_then_two :
  fst (generateSecurePassword (Some 3%Z) world0) = Ok (lit "ABC")
  /\ fst (generateSecurePassword (Some 2%Z)
            (snd (generateSecurePassword (Some 3%Z) world0))) = Ok (lit "DE")
  /\ fst (generateSecurePassword (Some 5%Z) world0) = Ok (lit "ABCDE").
Proof. repeat split; vm_compute; reflexivity. Qed.

End MoreInstances.
